(** * Verification of the user seeder (seeds/user_seed.py)

    A shallow embedding of the seeding script: configuration loading,
    the command line, the uniqueness-preserving record generator, the
    password hasher and the transactional batch commit.  The libraries the
    script calls (Faker, the e-mail validator, bcrypt, the database) are
    taken as oracles; everything the script itself does is a definition
    below. *)

From Stdlib Require Import ZArith String Ascii List Lia.
From stdpp Require Import base tactics option list list_numbers gmap sets strings pretty.

Set Warnings "-clear-no-such-hyp".

Open Scope string_scope.
Open Scope list_scope.
Open Scope Z_scope.

(** ** Strings *)

Module Str.

(** [s[:n]] of Python. *)
Definition take (n : nat) (s : string) : string := String.substring 0 n s.

Fixpoint starts_with (p s : string) : bool :=
  match p, s with
  | EmptyString, _ => true
  | String a p', String b s' => if Ascii.eqb a b then starts_with p' s' else false
  | String _ _, EmptyString => false
  end.

(** [s.split(c, 1)]: the text before the first [c], and the text after it
    when there is one. *)
Fixpoint split_at (c : ascii) (s : string) : string * option string :=
  match s with
  | EmptyString => (EmptyString, None)
  | String a s' =>
      if Ascii.eqb a c then (EmptyString, Some s')
      else let '(l, r) := split_at c s' in (String a l, r)
  end.

Definition is_digit (a : ascii) : bool :=
  let n := nat_of_ascii a in (48 <=? n)%nat && (n <=? 57)%nat.

Definition digit_value (a : ascii) : Z := Z.of_nat (nat_of_ascii a) - 48.

Fixpoint digits_value (s : string) (acc : Z) : option Z :=
  match s with
  | EmptyString => Some acc
  | String a s' =>
      if is_digit a then digits_value s' (10 * acc + digit_value a) else None
  end.

(** [int(s)] on a decimal literal with an optional sign; [None] stands for
    the [ValueError]. *)
Definition int_of_string (s : string) : option Z :=
  match s with
  | EmptyString => None
  | String "-" (String _ _ as ds) => Z.opp <$> digits_value ds 0
  | String "+" (String _ _ as ds) => digits_value ds 0
  | _ => digits_value s 0
  end.

Definition join_lines (l : list string) : string :=
  fold_right (fun s acc => s +:+ acc) "" l.

End Str.

(** ** Exceptions and results *)

(** The exception classes [seed_users] tells apart; the payload is [str(e)]. *)
Inductive exn : Type :=
| IntegrityError (msg : string)
| ValidationError (msg : string)
| OtherException (msg : string).

(** Outcome of running a piece of the script: a value, a raised exception,
    or no answer within the allotted number of loop iterations. *)
Inductive res (A : Type) : Type :=
| Ok (a : A)
| Raise (e : exn)
| Diverge.
Arguments Ok {A} a.
Arguments Raise {A} e.
Arguments Diverge {A}.

(** ** Configuration: class Settings *)

Record Settings : Type := mkSettings {
  db_host : string;
  db_user : string;
  db_password : string;
  db_name : string;
  db_port : option Z;
  salt : string
}.

Inductive FieldError : Type :=
| Missing
| IntParsing.

Definition ErrorList : Type := list (string * FieldError).

(** The environment after [load_dotenv()], keyed by variable name. *)
Abbreviation Environ := (gmap string string).

Module Config.

Definition env_prefix : string := "DB_".

(** Environment variable read for each field: the prefix and the field
    name, except for [salt], mapped to [SALT] by [Config.fields]. *)
Definition env_name (field : string) : string :=
  if String.eqb field "salt" then "SALT"
  else if String.eqb field "db_host" then env_prefix +:+ "HOST"
  else if String.eqb field "db_user" then env_prefix +:+ "USER"
  else if String.eqb field "db_password" then env_prefix +:+ "PASSWORD"
  else if String.eqb field "db_name" then env_prefix +:+ "NAME"
  else if String.eqb field "db_port" then env_prefix +:+ "PORT"
  else env_prefix +:+ field.


Definition default_port : Z := 5432.

End Config.

Definition read_str (env : Environ) (field : string) : ErrorList + string :=
  match env !! Config.env_name field with
  | Some v => inr v
  | None => inl [(field, Missing)]
  end.

Definition read_port (env : Environ) : ErrorList + option Z :=
  match env !! Config.env_name "db_port" with
  | None => inr (Some Config.default_port)
  | Some v =>
      match Str.int_of_string v with
      | Some p => inr (Some p)
      | None => inl [("db_port", IntParsing)]
      end
  end.

Definition errors_of {A} (r : ErrorList + A) : ErrorList :=
  match r with inl e => e | inr _ => [] end.

(** [Settings()]: every field is read and validated, the errors of all the
    fields are collected in declaration order, and a settings object exists
    only when there is none. *)
Definition Settings_new (env : Environ) : ErrorList + Settings :=
  let h := read_str env "db_host" in
  let u := read_str env "db_user" in
  let p := read_str env "db_password" in
  let n := read_str env "db_name" in
  let port := read_port env in
  let s := read_str env "salt" in
  match h, u, p, n, port, s with
  | inr h', inr u', inr p', inr n', inr port', inr s' =>
      inr (mkSettings h' u' p' n' port' s')
  | _, _, _, _, _, _ =>
      inl (errors_of h ++ errors_of u ++ errors_of p ++ errors_of n
           ++ errors_of port ++ errors_of s)
  end.


Definition FieldError_str (k : FieldError) : string :=
  match k with
  | Missing => "Field required"
  | IntParsing => "Input should be a valid integer, unable to parse string as an integer"
  end.

Definition newline : string := String (ascii_of_nat 10) EmptyString.

(** [str(e)] of the configuration's [ValidationError]: a count line and, for
    each error, the field and what is wrong with it. *)
Definition ErrorList_str (errs : ErrorList) : string :=
  pretty (length errs) +:+ " validation error"
  +:+ (if decide (length errs = 1%nat) then "" else "s") +:+ " for Settings"
  +:+ Str.join_lines
        (map (fun '(f, k) => newline +:+ f +:+ newline +:+ "  " +:+ FieldError_str k) errs).

Definition loaded_settings_line (s : Settings) : string :=
  "Loaded settings: db_host=" +:+ db_host s +:+ ", db_user=" +:+ db_user s
  +:+ ", salt=" +:+ Str.take 4 (salt s) +:+ "****".

Definition port_str (p : option Z) : string :=
  match p with Some z => pretty z | None => "None" end.

Definition DATABASE_URL (s : Settings) : string :=
  "postgresql://" +:+ db_user s +:+ ":" +:+ db_password s +:+ "@" +:+ db_host s
  +:+ ":" +:+ port_str (db_port s) +:+ "/" +:+ db_name s.

(** ** Command line: parse_arguments *)

Module Argparse.

(** What [parser.parse_args()] does with the process: hand back the
    namespace, or leave through [SystemExit] (0 after the help text, 2
    after a usage error). *)
Inductive outcome : Type :=
| Namespace (number : Z)
| SystemExit (code : Z).

Definition description : string := "Seed the users table with fake data.".

(** The one argument the script adds to the parser. *)
Record Argument : Type := mkArgument {
  short_flag : string;
  long_flag : string;
  default : Z;
  help : string
}.

Definition number_argument : Argument :=
  mkArgument "-n" "--number" 10 "Number of fake users to generate (default: 10)".


Inductive token : Type :=
| TNumber (explicit : option string)
| THelp
| TBadHelp
| TDoubleDash
| TExtra.

Definition abbreviates (name full : string) : bool :=
  Str.starts_with name full && (2 <? String.length name)%nat.

Definition classify (tok : string) : token :=
  if String.eqb tok "--" then TDoubleDash
  else if Str.starts_with "--" tok then
    let '(name, explicit) := Str.split_at "=" tok in
    if abbreviates name (long_flag number_argument) then TNumber explicit
    else if abbreviates name "--help" then
      match explicit with None => THelp | Some _ => TBadHelp end
    else TExtra
  else if String.eqb tok (short_flag number_argument) then TNumber None
  else if String.eqb tok "-h" then THelp
  else if Str.starts_with (short_flag number_argument) tok then
    match tok with
    | String _ (String _ (String "=" v)) => TNumber (Some v)
    | String _ (String _ v) => TNumber (Some v)
    | _ => TExtra
    end
  else if Str.starts_with "-h" tok then TBadHelp
  else TExtra.

Definition is_negative_number (s : string) : bool :=
  match s with
  | String "-" (String _ _ as ds) => forallb Str.is_digit (list_ascii_of_string ds)
  | _ => false
  end.

(** A token that can be the value of a flag: not option-like. *)
Definition is_argument (s : string) : bool :=
  negb (Str.starts_with "-" s) || String.eqb s "-" || is_negative_number s.

Fixpoint parse_args (argv : list string) (number : Z) (extras : bool) : outcome :=
  match argv with
  | [] => if extras then SystemExit 2 else Namespace number
  | tok :: rest =>
      match classify tok with
      | THelp => SystemExit 0
      | TBadHelp => SystemExit 2
      | TExtra => parse_args rest number true
      | TDoubleDash =>
          match rest with
          | [] => if extras then SystemExit 2 else Namespace number
          | _ :: _ => SystemExit 2
          end
      | TNumber (Some v) =>
          match Str.int_of_string v with
          | Some z => parse_args rest z extras
          | None => SystemExit 2
          end
      | TNumber None =>
          match rest with
          | v :: rest' =>
              if is_argument v then
                match Str.int_of_string v with
                | Some z => parse_args rest' z extras
                | None => SystemExit 2
                end
              else SystemExit 2
          | [] => SystemExit 2
          end
      end
  end.

End Argparse.

Definition parse_arguments (argv : list string) : Argparse.outcome :=
  Argparse.parse_args argv (Argparse.default Argparse.number_argument) false.

(** ** Data model *)

(** The pydantic model [UserData]: a validated candidate, the password
    still in plain text. *)
Module UserData.
Record t : Type := mk {
  first_name : string;
  last_name : string;
  email : string;
  username : string;
  password : string
}.
End UserData.

(** A row of the [users] table, as [seed_users] builds it.  The columns the
    store fills in by default ([id], [created_at], [updated_at]) are not
    assigned by the script and are left out. *)
Module User.
Record t : Type := mk {
  first_name : string;
  last_name : string;
  email : string;
  username : string;
  password : string
}.

Definition emails (rows : list t) : list string := map email rows.
Definition usernames (rows : list t) : list string := map username rows.

Definition repr (u : t) : string :=
  "<User(name=" +:+ first_name u +:+ " " +:+ last_name u
  +:+ ", email=" +:+ email u +:+ ")>".
End User.

(** One round of Faker calls in the generator's loop body. *)
Module Fake.
Record draw : Type := mk {
  password : string;
  first_name : string;
  last_name : string;
  email : string;
  user_name : string
}.
End Fake.

(** The calls the script makes on the store, in the order of the source. *)
Inductive StoreOp : Type :=
| OpCreateAll
| OpSession
| OpQueryEmails
| OpQueryUsernames
| OpAddAll (users : list User.t)
| OpCommit
| OpRollback
| OpClose.

Definition is_commit (op : StoreOp) : bool :=
  match op with OpCommit => true | _ => false end.
Definition is_add_all (op : StoreOp) : bool :=
  match op with OpAddAll _ => true | _ => false end.
Definition is_rollback (op : StoreOp) : bool :=
  match op with OpRollback => true | _ => false end.
Definition is_query_emails (op : StoreOp) : bool :=
  match op with OpQueryEmails => true | _ => false end.
Definition is_query_usernames (op : StoreOp) : bool :=
  match op with OpQueryUsernames => true | _ => false end.

Definition count_ops (p : StoreOp -> bool) (log : list StoreOp) : nat :=
  length (filter (fun op => p op = true) log).

(** Everything the script reads or changes while it runs. *)
Record World : Type := mkWorld {
  db_rows : list User.t;        (* committed rows of the users table *)
  session_new : list User.t;    (* objects added to the session, not yet committed *)
  stdout : list string;         (* one entry per print call *)
  store_log : list StoreOp;     (* store calls made so far *)
  fake_calls : nat;             (* rounds of Faker calls made so far *)
  hash_calls : nat              (* calls of the password hasher so far *)
}.

Definition set_db_rows (r : list User.t) (w : World) : World :=
  mkWorld r (session_new w) (stdout w) (store_log w) (fake_calls w) (hash_calls w).
Definition set_session_new (n : list User.t) (w : World) : World :=
  mkWorld (db_rows w) n (stdout w) (store_log w) (fake_calls w) (hash_calls w).
Definition add_stdout (s : string) (w : World) : World :=
  mkWorld (db_rows w) (session_new w) (stdout w ++ [s]) (store_log w) (fake_calls w) (hash_calls w).
Definition add_store_log (op : StoreOp) (w : World) : World :=
  mkWorld (db_rows w) (session_new w) (stdout w) (store_log w ++ [op]) (fake_calls w) (hash_calls w).
Definition tick_fake (w : World) : World :=
  mkWorld (db_rows w) (session_new w) (stdout w) (store_log w) (S (fake_calls w)) (hash_calls w).
Definition tick_hash (w : World) : World :=
  mkWorld (db_rows w) (session_new w) (stdout w) (store_log w) (fake_calls w) (S (hash_calls w)).

Definition initial_world (rows : list User.t) : World := mkWorld rows [] [] [] 0 0.

(** ** The monad of the script: state, exceptions, divergence *)

Definition M (A : Type) : Type := World -> res A * World.

Definition ret {A} (a : A) : M A := fun w => (Ok a, w).

Definition bind {A B} (m : M A) (f : A -> M B) : M B :=
  fun w =>
    match m w with
    | (Ok a, w') => f a w'
    | (Raise e, w') => (Raise e, w')
    | (Diverge, w') => (Diverge, w')
    end.

Definition raise {A} (e : exn) : M A := fun w => (Raise e, w).
Definition diverge {A} : M A := fun w => (Diverge, w).

Declare Scope script_scope.
Delimit Scope script_scope with script.
Notation "x <- c1 ;; c2" := (bind c1 (fun x => c2))
  (at level 100, c1 at next level, right associativity) : script_scope.
Notation "c1 ;; c2" := (bind c1 (fun _ => c2))
  (at level 100, right associativity) : script_scope.
Open Scope script_scope.

(** [try: body except Exception as e: handler e]. *)
Definition try_except {A} (body : M A) (handler : exn -> M A) : M A :=
  fun w =>
    match body w with
    | (Raise e, w') => handler e w'
    | r => r
    end.

(** [try: body finally: cleanup]: the cleanup runs on every exit of the
    body, and an exception of the cleanup replaces the body's outcome. *)
Definition try_finally {A} (body : M A) (cleanup : M unit) : M A :=
  fun w =>
    match body w with
    | (Diverge, w') => (Diverge, w')
    | (r, w') =>
        match cleanup w' with
        | (Ok _, w'') => (r, w'')
        | (Raise e, w'') => (Raise e, w'')
        | (Diverge, w'') => (Diverge, w'')
        end
    end.

Definition print (s : string) : M unit := fun w => (Ok tt, add_stdout s w).
Definition modify (f : World -> World) : M unit := fun w => (Ok tt, f w).
Definition gets {A} (f : World -> A) : M A := fun w => (Ok (f w), w).

(** The world after [k] more rounds of Faker calls. *)
Definition advance (k : nat) (w : World) : World := Nat.iter k tick_fake w.

(** ** Concrete oracles

    A small instance of the libraries, on which the script can be run: the
    Faker repeats every value once, the validator asks for an [@], the
    digest is a tagged copy of its input, and the store fails where told. *)

Module Demo.

Definition fake (n : nat) : exn + Fake.draw :=
  let k := pretty (n / 2)%nat in
  inr (Fake.mk ("secret" +:+ k) "Ada" "Byron" ("user" +:+ k +:+ "@example.org")
               ("user" +:+ k)).


(** A Faker whose first [n] draws repeat the row of the store. *)
Definition fake_after (n : nat) (j : nat) : exn + Fake.draw :=
  if (j <? n)%nat then fake 0 else fake 2.

(** A Faker that only ever draws one candidate. *)
Definition fake_constant (n : nat) : exn + Fake.draw := fake 0.

Definition EmailStr (s : string) : option string :=
  if existsb (Ascii.eqb "@") (list_ascii_of_string s) then Some s else None.

Definition digest (n : nat) (secret : string) : string :=
  "$digest$" +:+ pretty n +:+ "$" +:+ secret.

Definition no_fault (op : StoreOp) : option exn := None.

Definition commit_fails (op : StoreOp) : option exn :=
  match op with
  | OpCommit => Some (IntegrityError "duplicate key value violates unique constraint")
  | _ => None
  end.

Definition create_all_fails (op : StoreOp) : option exn :=
  match op with
  | OpCreateAll => Some (OtherException "connection refused")
  | _ => None
  end.

Definition settings : Settings :=
  mkSettings "localhost" "seeder" "hunter2" "app" (Some 5432) "pepper-value".

Definition environ : Environ :=
  <["DB_HOST" := "localhost"]> (<["DB_USER" := "seeder"]> (<["DB_PASSWORD" := "hunter2"]>
    (<["DB_NAME" := "app"]> (<["SALT" := "pepper-value"]> ∅)))).


(** The same environment with another salt. *)
Definition environ_other_salt : Environ := <["SALT" := "salt-value"]> environ.

Definition existing : list User.t :=
  [User.mk "Ada" "Byron" "user0@example.org" "user0" "$digest$old"].

Definition world : World := initial_world existing.

(** The two rows the generator produces on [world]. *)
Definition batch : list User.t :=
  [User.mk "Ada" "Byron" "user1@example.org" "user1" "$digest$0$secret1pepper-value";
   User.mk "Ada" "Byron" "user2@example.org" "user2" "$digest$1$secret2pepper-value"].

Definition existing_emails : gset string := {["user0@example.org"]}.
Definition existing_usernames : gset string := {["user0"]}.

Definition candidate0 : UserData.t :=
  UserData.mk "Ada" "Byron" "user0@example.org" "user0" "secret0".

Definition candidate1 : UserData.t :=
  UserData.mk "Ada" "Byron" "user1@example.org" "user1" "secret1".

End Demo.

Definition is_close (op : StoreOp) : bool :=
  match op with OpClose => true | _ => false end.

(** The line an [except] clause of [seed_users] prints for an exception. *)
Definition error_line (e : exn) : string :=
  match e with
  | IntegrityError ie => "Integrity Error: " +:+ ie
  | ValidationError ve => "Validation Error: " +:+ ve
  | OtherException msg => "An unexpected error occurred: " +:+ msg
  end.

(** [str(e)] of the [ValidationError] for a malformed e-mail. *)
Definition UserData_email_error : string :=
  "1 validation error for UserData" +:+ newline +:+ "email"
  +:+ newline +:+ "  value is not a valid email address".

(** ** The earlier copy of the script: tests/unit/test_database.py

    The same pipeline without passwords: no salt in the settings, no password
    in the candidates and rows, the batch written with [bulk_save_objects],
    and no progress output. *)

Module TestDb.

Record Settings : Type := mkSettings {
  db_host : string;
  db_user : string;
  db_password : string;
  db_name : string;
  db_port : option Z
}.

Definition Settings_new (env : Environ) : ErrorList + Settings :=
  let h := read_str env "db_host" in
  let u := read_str env "db_user" in
  let p := read_str env "db_password" in
  let n := read_str env "db_name" in
  let port := read_port env in
  match h, u, p, n, port with
  | inr h', inr u', inr p', inr n', inr port' => inr (mkSettings h' u' p' n' port')
  | _, _, _, _, _ =>
      inl (errors_of h ++ errors_of u ++ errors_of p ++ errors_of n ++ errors_of port)
  end.

Record UserData : Type := mkUserData {
  ud_first_name : string;
  ud_last_name : string;
  ud_email : string;
  ud_username : string
}.

(** A row of the [users] table of this copy; [id] comes from a sequence of
    the store and is left out. *)
Record User : Type := mkUser {
  first_name : string;
  last_name : string;
  email : string;
  username : string
}.

Definition emails (rows : list User) : list string := map email rows.
Definition usernames (rows : list User) : list string := map username rows.

(** One round of Faker calls: no password is drawn. *)
Record draw : Type := mkDraw {
  fake_first_name : string;
  fake_last_name : string;
  fake_email : string;
  fake_user_name : string
}.

Inductive StoreOp : Type :=
| OpCreateAll
| OpSession
| OpQueryEmails
| OpQueryUsernames
| OpBulkSave (users : list User)
| OpCommit
| OpRollback
| OpClose.

Record World : Type := mkWorld {
  db_rows : list User;          (* committed rows *)
  txn : list User;              (* rows inserted in the open transaction *)
  stdout : list string;
  store_log : list StoreOp;
  fake_calls : nat
}.

Definition set_db_rows (r : list User) (w : World) : World :=
  mkWorld r (txn w) (stdout w) (store_log w) (fake_calls w).
Definition set_txn (t : list User) (w : World) : World :=
  mkWorld (db_rows w) t (stdout w) (store_log w) (fake_calls w).
Definition add_stdout (s : string) (w : World) : World :=
  mkWorld (db_rows w) (txn w) (stdout w ++ [s]) (store_log w) (fake_calls w).
Definition add_store_log (op : StoreOp) (w : World) : World :=
  mkWorld (db_rows w) (txn w) (stdout w) (store_log w ++ [op]) (fake_calls w).
Definition tick_fake (w : World) : World :=
  mkWorld (db_rows w) (txn w) (stdout w) (store_log w) (S (fake_calls w)).

Definition M (A : Type) : Type := World -> res A * World.

Definition ret {A} (a : A) : M A := fun w => (Ok a, w).

Definition bind {A B} (m : M A) (f : A -> M B) : M B :=
  fun w =>
    match m w with
    | (Ok a, w') => f a w'
    | (Raise e, w') => (Raise e, w')
    | (Diverge, w') => (Diverge, w')
    end.

Definition raise {A} (e : exn) : M A := fun w => (Raise e, w).
Definition diverge {A} : M A := fun w => (Diverge, w).

Definition try_except {A} (body : M A) (handler : exn -> M A) : M A :=
  fun w =>
    match body w with
    | (Raise e, w') => handler e w'
    | r => r
    end.

Definition try_finally {A} (body : M A) (cleanup : M unit) : M A :=
  fun w =>
    match body w with
    | (Diverge, w') => (Diverge, w')
    | (r, w') =>
        match cleanup w' with
        | (Ok _, w'') => (r, w'')
        | (Raise e, w'') => (Raise e, w'')
        | (Diverge, w'') => (Diverge, w'')
        end
    end.

Definition print (s : string) : M unit := fun w => (Ok tt, add_stdout s w).
Definition modify (f : World -> World) : M unit := fun w => (Ok tt, f w).
Definition gets {A} (f : World -> A) : M A := fun w => (Ok (f w), w).

Section Oracles.

Variable fake : nat -> exn + draw.
Variable EmailStr : string -> option string.
Variable fault : StoreOp -> option exn.

Definition store_call (op : StoreOp) : M unit :=
  fun w =>
    match fault op with
    | Some e => (Raise e, add_store_log op w)
    | None => (Ok tt, add_store_log op w)
    end.

Definition insert_row (rows : list User) (u : User) : option (list User) :=
  if decide ((email u ∈ emails rows) \/ (username u ∈ usernames rows))
  then None
  else Some (rows ++ [u]).

Fixpoint flush (rows pending : list User) : option (list User) :=
  match pending with
  | [] => Some rows
  | u :: pending' =>
      match insert_row rows u with
      | Some rows' => flush rows' pending'
      | None => None
      end
  end.

Definition create_all : M unit := store_call OpCreateAll.

Definition Session : M unit := bind (store_call OpSession) (fun _ => modify (set_txn [])).

Definition query_emails : M (list string) :=
  bind (store_call OpQueryEmails) (fun _ => gets (fun w => emails (db_rows w ++ txn w))).

Definition query_usernames : M (list string) :=
  bind (store_call OpQueryUsernames)
       (fun _ => gets (fun w => usernames (db_rows w ++ txn w))).

(** [session.bulk_save_objects]: the rows are inserted at once, in the open
    transaction, under the unique constraints of the table. *)
Definition bulk_save_objects (users : list User) : M unit :=
  bind (store_call (OpBulkSave users))
       (fun _ w =>
          match flush (db_rows w ++ txn w) users with
          | Some _ => (Ok tt, set_txn (txn w ++ users) w)
          | None =>
              (Raise (IntegrityError "duplicate key value violates unique constraint"), w)
          end).

Definition commit : M unit :=
  bind (store_call OpCommit)
       (fun _ => modify (fun w => set_txn [] (set_db_rows (db_rows w ++ txn w) w))).

Definition rollback : M unit := bind (store_call OpRollback) (fun _ => modify (set_txn [])).

Definition close : M unit := bind (store_call OpClose) (fun _ => modify (set_txn [])).

Definition fake_draw : M draw :=
  fun w =>
    match fake (fake_calls w) with
    | inl e => (Raise e, tick_fake w)
    | inr d => (Ok d, tick_fake w)
    end.

Definition UserData_new (d : draw) : M UserData :=
  match EmailStr (fake_email d) with
  | Some e => ret (mkUserData (fake_first_name d) (fake_last_name d) e (fake_user_name d))
  | None => raise (ValidationError UserData_email_error)
  end.

Fixpoint generate_fake_user (fuel : nat) (existing_emails existing_usernames : gset string)
  : M (UserData * (gset string * gset string)) :=
  match fuel with
  | O => diverge
  | S fuel' =>
      bind fake_draw (fun d =>
      bind (UserData_new d) (fun user_data =>
      if decide ((ud_email user_data ∉ existing_emails)
                 /\ (ud_username user_data ∉ existing_usernames))
      then ret (user_data,
                ({[ud_email user_data]} ∪ existing_emails,
                 {[ud_username user_data]} ∪ existing_usernames))
      else generate_fake_user fuel' existing_emails existing_usernames))
  end.

(** The body of [for _ in range(count)], over the remaining values. *)
Fixpoint generate_users (fuel : nat) (range : list Z)
    (existing_emails existing_usernames : gset string) (users_to_add : list User)
  : M (list User * (gset string * gset string)) :=
  match range with
  | [] => ret (users_to_add, (existing_emails, existing_usernames))
  | _ :: range' =>
      bind (generate_fake_user fuel existing_emails existing_usernames) (fun r =>
      let '(user_data, (existing_emails', existing_usernames')) := r in
      let user := mkUser (ud_first_name user_data) (ud_last_name user_data)
                         (ud_email user_data) (ud_username user_data) in
      generate_users fuel range' existing_emails' existing_usernames'
                     (users_to_add ++ [user]))
  end.

Definition seed_try_body (fuel : nat) (count : Z) : M unit :=
  bind query_emails (fun emails =>
  let existing_emails : gset string := list_to_set emails in
  bind query_usernames (fun usernames =>
  let existing_usernames : gset string := list_to_set usernames in
  bind (generate_users fuel (seqZ 0 count) existing_emails existing_usernames [])
       (fun r =>
  let users_to_add := fst r in
  bind (bulk_save_objects users_to_add) (fun _ =>
  bind commit (fun _ =>
  print ("Successfully added " +:+ pretty count +:+ " users to the database.")))))).

Definition seed_handler (e : exn) : M unit :=
  match e with
  | IntegrityError ie => bind rollback (fun _ => print ("Integrity Error: " +:+ ie))
  | ValidationError ve => bind rollback (fun _ => print ("Validation Error: " +:+ ve))
  | OtherException msg =>
      bind rollback (fun _ => print ("An unexpected error occurred: " +:+ msg))
  end.

Definition seed_users (fuel : nat) (count : Z) : M unit :=
  bind create_all (fun _ =>
  bind Session (fun _ =>
  try_finally (try_except (seed_try_body fuel count) seed_handler) close)).

Definition script (env : Environ) (argv : list string) (fuel : nat) (w : World)
  : option Z * World :=
  match Settings_new env with
  | inl e =>
      (Some 1, add_stdout (ErrorList_str e) (add_stdout "Configuration Error:" w))
  | inr _ =>
      match parse_arguments argv with
      | Argparse.SystemExit code => (Some code, w)
      | Argparse.Namespace number =>
          match seed_users fuel number w with
          | (Ok _, w2) => (Some 0, w2)
          | (Raise _, w2) => (Some 1, w2)
          | (Diverge, w2) => (None, w2)
          end
      end
  end.

End Oracles.

End TestDb.

(** *** What the two copies have in common *)


Definition forget_draw (d : Fake.draw) : TestDb.draw :=
  TestDb.mkDraw (Fake.first_name d) (Fake.last_name d) (Fake.email d) (Fake.user_name d).

Definition forget_data (ud : UserData.t) : TestDb.UserData :=
  TestDb.mkUserData (UserData.first_name ud) (UserData.last_name ud)
                    (UserData.email ud) (UserData.username ud).

Definition forget_user (u : User.t) : TestDb.User :=
  TestDb.mkUser (User.first_name u) (User.last_name u) (User.email u) (User.username u).

Definition forget_op (op : StoreOp) : TestDb.StoreOp :=
  match op with
  | OpCreateAll => TestDb.OpCreateAll
  | OpSession => TestDb.OpSession
  | OpQueryEmails => TestDb.OpQueryEmails
  | OpQueryUsernames => TestDb.OpQueryUsernames
  | OpAddAll users => TestDb.OpBulkSave (map forget_user users)
  | OpCommit => TestDb.OpCommit
  | OpRollback => TestDb.OpRollback
  | OpClose => TestDb.OpClose
  end.

Definition forget_fake (fake : nat -> exn + Fake.draw) (n : nat) : exn + TestDb.draw :=
  match fake n with
  | inl e => inl e
  | inr d => inr (forget_draw d)
  end.

Definition forget_result {A B} (f : A -> B) (r : res A) : res B :=
  match r with
  | Ok a => Ok (f a)
  | Raise e => Raise e
  | Diverge => Diverge
  end.

(** The world of the copy that corresponds to a world of the seeder: the same
    rows without their passwords, the same store calls, the same count of
    draws. *)
Definition same_run (w : World) (w0 : TestDb.World) : Prop :=
  TestDb.db_rows w0 = map forget_user (db_rows w)
  /\ TestDb.store_log w0 = map forget_op (store_log w)
  /\ TestDb.fake_calls w0 = fake_calls w.

(** What a computation leaves alone: the store, the session and the log. *)
Definition same_store (w w' : World) : Prop :=
  db_rows w' = db_rows w /\ session_new w' = session_new w
  /\ store_log w' = store_log w.

(** A computation that only ever adds lines to the output. *)
Definition appends {A} (m : M A) : Prop :=
  forall w, exists out, stdout (m w).2 = stdout w ++ out.

Create HintDb appends discriminated.

(** Projections of the world through its updates. *)
Ltac wsimpl :=
  cbn [db_rows session_new stdout store_log fake_calls hash_calls
       add_stdout add_store_log set_db_rows set_session_new tick_fake tick_hash].
Tactic Notation "wsimpl" "in" hyp(H) :=
  cbn [db_rows session_new stdout store_log fake_calls hash_calls
       add_stdout add_store_log set_db_rows set_session_new tick_fake tick_hash] in H.

(** ** The seeder *)

Section Seeder.

(** The libraries, as oracles.  [fake n] is what the [n]-th round of Faker
    calls gives: the drawn values, or the exception one of the calls raises
    ([fake.unique] raises when it finds no fresh value).  [EmailStr] is the
    e-mail validation of the [UserData] model: the validated address, or no
    value when the address is malformed.  [bcrypt n secret] is the digest
    [pwd_context.hash] computes at its [n]-th call (it salts each call
    itself).  [fault op] is the exception the store raises at the call [op],
    if any. *)
Variable fake : nat -> exn + Fake.draw.
Variable EmailStr : string -> option string.
Variable bcrypt : nat -> string -> string.
Variable fault : StoreOp -> option exn.

(** *** Store and session *)

Definition store_call (op : StoreOp) : M unit :=
  fun w =>
    match fault op with
    | Some e => (Raise e, add_store_log op w)
    | None => (Ok tt, add_store_log op w)
    end.

(** INSERT of one row under the two unique constraints of the table. *)
Definition insert_row (rows : list User.t) (u : User.t) : option (list User.t) :=
  if decide ((User.email u ∈ User.emails rows) ∨ (User.username u ∈ User.usernames rows))
  then None
  else Some (rows ++ [u]).

(** The flush of a commit: the pending rows are inserted one by one in the
    transaction; a violated constraint aborts it. *)
Fixpoint flush (rows pending : list User.t) : option (list User.t) :=
  match pending with
  | [] => Some rows
  | u :: pending' =>
      match insert_row rows u with
      | Some rows' => flush rows' pending'
      | None => None
      end
  end.

Definition create_all : M unit := store_call OpCreateAll.

(** [Session()]: a new session, with nothing pending. *)
Definition Session : M unit :=
  store_call OpSession ;; modify (set_session_new []).

Definition query_emails : M (list string) :=
  store_call OpQueryEmails ;; gets (fun w => User.emails (db_rows w)).

Definition query_usernames : M (list string) :=
  store_call OpQueryUsernames ;; gets (fun w => User.usernames (db_rows w)).

Definition add_all (users : list User.t) : M unit :=
  store_call (OpAddAll users) ;;
  modify (fun w => set_session_new (session_new w ++ users) w).

(** The rows reach the table only when the whole flush went through. *)
Definition commit : M unit :=
  store_call OpCommit ;;
  fun w =>
    match flush (db_rows w) (session_new w) with
    | Some rows' => (Ok tt, set_session_new [] (set_db_rows rows' w))
    | None => (Raise (IntegrityError "duplicate key value violates unique constraint"), w)
    end.

Definition rollback : M unit :=
  store_call OpRollback ;; modify (set_session_new []).

Definition close : M unit :=
  store_call OpClose ;; modify (set_session_new []).

(** *** hash_password *)

Definition pwd_context_hash (secret : string) : M string :=
  fun w => (Ok (bcrypt (hash_calls w) secret), tick_hash w).

Definition hash_password (plain_password salt : string) : M string :=
  let salted_password := plain_password +:+ salt in
  pwd_context_hash salted_password.

(** *** generate_fake_user *)

Definition fake_draw : M Fake.draw :=
  fun w =>
    match fake (fake_calls w) with
    | inl e => (Raise e, tick_fake w)
    | inr d => (Ok d, tick_fake w)
    end.

(** The constructor of [UserData]: pydantic validates the fields and
    raises [ValidationError] on a malformed e-mail. *)
Definition UserData_new (d : Fake.draw) : M UserData.t :=
  match EmailStr (Fake.email d) with
  | Some e =>
      ret (UserData.mk (Fake.first_name d) (Fake.last_name d) e
                       (Fake.user_name d) (Fake.password d))
  | None => raise (ValidationError UserData_email_error)
  end.

(** The two sets are mutated in place by the source; here the updated sets
    are returned with the candidate.  [fuel] bounds the iterations of the
    [while True] loop that are followed. *)
Fixpoint generate_fake_user (fuel : nat) (existing_emails existing_usernames : gset string)
  : M (UserData.t * (gset string * gset string)) :=
  match fuel with
  | O => diverge
  | S fuel' =>
      d <- fake_draw ;;
      user_data <- UserData_new d ;;
      (if decide ((UserData.email user_data ∉ existing_emails)
                  ∧ (UserData.username user_data ∉ existing_usernames))
       then ret (user_data,
                 ({[UserData.email user_data]} ∪ existing_emails,
                  {[UserData.username user_data]} ∪ existing_usernames))
       else generate_fake_user fuel' existing_emails existing_usernames)
  end.

(** *** seed_users *)

(** The body of [for i in range(1, count + 1)], over the remaining values
    of [i]. *)
Fixpoint generate_users (fuel : nat) (settings : Settings) (range : list Z)
    (existing_emails existing_usernames : gset string) (users_to_add : list User.t)
  : M (list User.t * (gset string * gset string)) :=
  match range with
  | [] => ret (users_to_add, (existing_emails, existing_usernames))
  | i :: range' =>
      print ("Generating user " +:+ pretty i +:+ "...") ;;
      r <- generate_fake_user fuel existing_emails existing_usernames ;;
      let '(user_data, (existing_emails', existing_usernames')) := r in
      hashed_password <- hash_password (UserData.password user_data) (salt settings) ;;
      let user := User.mk (UserData.first_name user_data) (UserData.last_name user_data)
                          (UserData.email user_data) (UserData.username user_data)
                          hashed_password in
      print ("User " +:+ pretty i +:+ ": " +:+ User.username user +:+ " created.") ;;
      generate_users fuel settings range' existing_emails' existing_usernames'
                     (users_to_add ++ [user])
  end.

Definition success_line (count : Z) : string :=
  "Successfully added " +:+ pretty count +:+ " users to the database.".

Definition seed_try_body (fuel : nat) (settings : Settings) (count : Z) : M unit :=
  print "Fetching existing emails and usernames to prevent duplicates..." ;;
  emails <- query_emails ;;
  let existing_emails : gset string := list_to_set emails in
  usernames <- query_usernames ;;
  let existing_usernames : gset string := list_to_set usernames in
  print ("Found " +:+ pretty (size existing_emails) +:+ " existing emails and "
         +:+ pretty (size existing_usernames) +:+ " existing usernames.") ;;
  r <- generate_users fuel settings (seqZ 1 count) existing_emails existing_usernames [] ;;
  let users_to_add := fst r in
  print "Adding users to the session..." ;;
  add_all users_to_add ;;
  print "Committing the session..." ;;
  commit ;;
  print (success_line count).

Definition seed_handler (e : exn) : M unit :=
  match e with
  | IntegrityError ie => rollback ;; print ("Integrity Error: " +:+ ie)
  | ValidationError ve => rollback ;; print ("Validation Error: " +:+ ve)
  | OtherException msg => rollback ;; print ("An unexpected error occurred: " +:+ msg)
  end.

Definition seed_users (fuel : nat) (settings : Settings) (count : Z) : M unit :=
  print "Creating tables if they don't exist..." ;;
  create_all ;;
  Session ;;
  try_finally
    (try_except (seed_try_body fuel settings count) seed_handler)
    (close ;; print "Session closed.").

(** The candidate the [n]-th round of draws yields, when it yields one. *)
Definition candidate (n : nat) : option UserData.t :=
  match fake n with
  | inl _ => None
  | inr d =>
      match EmailStr (Fake.email d) with
      | Some e => Some (UserData.mk (Fake.first_name d) (Fake.last_name d) e
                                    (Fake.user_name d) (Fake.password d))
      | None => None
      end
  end.

Definition fresh (E U : gset string) (ud : UserData.t) : Prop :=
  (UserData.email ud ∉ E) /\ (UserData.username ud ∉ U).

(** *** Vocabulary of the properties *)

(** A batch of [count] rows whose e-mails and user names are pairwise
    distinct and absent from the rows [rows] of the store. *)
Definition batch_ok (rows : list User.t) (count : Z) (users : list User.t) : Prop :=
  length users = Z.to_nat count
  /\ NoDup (User.emails users)
  /\ (forall e, e ∈ User.emails users -> e ∉ User.emails rows)
  /\ NoDup (User.usernames users)
  /\ (forall u, u ∈ User.usernames users -> u ∉ User.usernames rows).

(** The store calls of a [try] body that ends in an exception: the call
    that failed is the last one. *)
Inductive body_trace (rows : list User.t) (count : Z) : list StoreOp -> Prop :=
| bt_query_emails :
    body_trace rows count [OpQueryEmails]
| bt_generation :
    fault OpQueryEmails = None ->
    body_trace rows count [OpQueryEmails; OpQueryUsernames]
| bt_add_all users :
    batch_ok rows count users ->
    fault (OpAddAll users) <> None ->
    body_trace rows count [OpQueryEmails; OpQueryUsernames; OpAddAll users]
| bt_commit users :
    batch_ok rows count users ->
    fault (OpAddAll users) = None ->
    fault OpCommit <> None \/ flush rows users = None ->
    body_trace rows count
      [OpQueryEmails; OpQueryUsernames; OpAddAll users; OpCommit].

(** *** The script, from its first line to the exit of the process *)

(** Exit status of the process, [None] when it does not end.  An exception
    that leaves [main] ends the interpreter with status 1. *)
Definition script (env : Environ) (argv : list string) (fuel : nat) (w : World)
  : option Z * World :=
  match Settings_new env with
  | inl e =>
      (Some 1, add_stdout (ErrorList_str e) (add_stdout "Configuration Error:" w))
  | inr settings =>
      let w1 := add_stdout (loaded_settings_line settings) w in
      match parse_arguments argv with
      | Argparse.SystemExit code => (Some code, w1)
      | Argparse.Namespace number =>
          match seed_users fuel settings number w1 with
          | (Ok _, w2) => (Some 0, w2)
          | (Raise _, w2) => (Some 1, w2)
          | (Diverge, w2) => (None, w2)
          end
      end
  end.

(** * Properties *)

(** ** Running the monad *)

Lemma bind_inv {A B} (m : M A) (f : A -> M B) w r w' :
  bind m f w = (r, w') ->
  (exists a w1, m w = (Ok a, w1) /\ f a w1 = (r, w')) \/
  (exists e, m w = (Raise e, w') /\ r = Raise e) \/
  (m w = (Diverge, w') /\ r = Diverge).
Proof.
  unfold bind. destruct (m w) as [[a|e|] w1]; intros H.
  - left. eauto.
  - right. left. inversion H. eauto.
  - right. right. inversion H. eauto.
Qed.

Lemma bind_Ok {A B} (m : M A) (f : A -> M B) w a w1 :
  m w = (Ok a, w1) -> bind m f w = f a w1.
Proof. unfold bind. intros ->. reflexivity. Qed.

Lemma bind_Raise {A B} (m : M A) (f : A -> M B) w e w1 :
  m w = (Raise e, w1) -> bind m f w = (Raise e, w1).
Proof. unfold bind. intros ->. reflexivity. Qed.

Lemma bind_Diverge {A B} (m : M A) (f : A -> M B) w w1 :
  m w = (Diverge, w1) -> bind m f w = (Diverge, w1).
Proof. unfold bind. intros ->. reflexivity. Qed.

Lemma same_store_refl w : same_store w w.
Proof. repeat split. Qed.

Lemma same_store_trans w1 w2 w3 :
  same_store w1 w2 -> same_store w2 w3 -> same_store w1 w3.
Proof. intros (? & ? & ?) (? & ? & ?). repeat split; congruence. Qed.

(** *** One iteration of the generator's loop *)

Lemma generate_fake_user_step fuel E U w :
  generate_fake_user (S fuel) E U w =
  match fake (fake_calls w) with
  | inl e => (Raise e, tick_fake w)
  | inr d =>
      match EmailStr (Fake.email d) with
      | None => (Raise (ValidationError UserData_email_error), tick_fake w)
      | Some e =>
          let ud := UserData.mk (Fake.first_name d) (Fake.last_name d) e
                                (Fake.user_name d) (Fake.password d) in
          if decide ((UserData.email ud ∉ E) /\ (UserData.username ud ∉ U))
          then (Ok (ud, ({[UserData.email ud]} ∪ E, {[UserData.username ud]} ∪ U)),
                tick_fake w)
          else generate_fake_user fuel E U (tick_fake w)
      end
  end.
Proof.
  simpl. unfold bind, fake_draw, UserData_new.
  destruct (fake (fake_calls w)) as [e|d]; [reflexivity|].
  destruct (EmailStr (Fake.email d)) as [e|]; [|reflexivity].
  simpl. destruct (decide _); reflexivity.
Qed.

(** The generator touches nothing but the Faker, and what it returns was
    absent from both sets, which grow by exactly the accepted values. *)
Lemma generate_fake_user_spec fuel E U w :
  let '(r, w') := generate_fake_user fuel E U w in
  same_store w w' /\ stdout w' = stdout w /\ hash_calls w' = hash_calls w
  /\ (fake_calls w <= fake_calls w')%nat
  /\ match r with
     | Ok (ud, (E', U')) =>
         fresh E U ud /\ E' = {[UserData.email ud]} ∪ E
         /\ U' = {[UserData.username ud]} ∪ U
         /\ candidate (pred (fake_calls w')) = Some ud
         /\ (fake_calls w < fake_calls w')%nat
     | _ => True
     end.
Proof.
  revert w. induction fuel as [|fuel IH]; intros w.
  - simpl. unfold same_store. repeat split; lia.
  - rewrite generate_fake_user_step. unfold candidate.
    destruct (fake (fake_calls w)) as [e|d] eqn:Hd.
    + unfold same_store. simpl. repeat split; lia.
    + destruct (EmailStr (Fake.email d)) as [e|] eqn:He.
      * cbv zeta. destruct (decide _) as [Hf|Hf].
        -- unfold same_store. simpl. rewrite Hd, He. repeat split; tauto || lia.
        -- specialize (IH (tick_fake w)).
           destruct (generate_fake_user fuel E U (tick_fake w)) as [r w'].
           destruct IH as (Hs & Ho & Hh & Hc & Hr). simpl in *.
           repeat split; try apply Hs; try assumption; try lia.
           destruct r as [[ud [E' U']]| |]; [|exact I|exact I].
           destruct Hr as ((? & ?) & ? & ? & ? & ?). repeat split; try assumption; lia.
      * unfold same_store. simpl. repeat split; lia.
Qed.

(** *** Output is only appended to *)

Lemma appends_ret {A} (a : A) : appends (ret a).
Proof. intros w. exists []. by rewrite app_nil_r. Qed.

Lemma appends_raise {A} e : appends (@raise A e).
Proof. intros w. exists []. by rewrite app_nil_r. Qed.

Lemma appends_diverge {A} : appends (@diverge A).
Proof. intros w. exists []. by rewrite app_nil_r. Qed.

Lemma appends_print line : appends (print line).
Proof. intros w. by exists [line]. Qed.

Lemma appends_gets {A} (f : World -> A) : appends (gets f).
Proof. intros w. exists []. by rewrite app_nil_r. Qed.

Lemma appends_modify f :
  (forall w, stdout (f w) = stdout w) -> appends (modify f).
Proof. intros Hf w. exists []. cbn. by rewrite Hf, app_nil_r. Qed.

Lemma appends_bind {A B} (m : M A) (f : A -> M B) :
  appends m -> (forall a, appends (f a)) -> appends (bind m f).
Proof.
  intros Hm Hf w. unfold bind. destruct (Hm w) as [out Hout].
  destruct (m w) as [[a|e|] w1]; cbn [snd] in Hout |- *; [|by exists out..].
  destruct (Hf a w1) as [out' Hout']. exists (out ++ out').
  by rewrite Hout', Hout, app_assoc.
Qed.

Lemma appends_try_except {A} (m : M A) (h : exn -> M A) :
  appends m -> (forall e, appends (h e)) -> appends (try_except m h).
Proof.
  intros Hm Hh w. unfold try_except. destruct (Hm w) as [out Hout].
  destruct (m w) as [[a|e|] w1]; cbn [snd] in Hout |- *; [by exists out| |by exists out].
  destruct (Hh e w1) as [out' Hout']. exists (out ++ out').
  by rewrite Hout', Hout, app_assoc.
Qed.

Lemma appends_try_finally {A} (m : M A) (c : M unit) :
  appends m -> appends c -> appends (try_finally m c).
Proof.
  intros Hm Hc w. unfold try_finally. destruct (Hm w) as [out Hout].
  destruct (m w) as [[a|e|] w1]; cbn [snd] in Hout |- *; [| |by exists out];
    (destruct (Hc w1) as [out' Hout']; exists (out ++ out');
     destruct (c w1) as [[[]|e'|] w2]; cbn [snd] in Hout' |- *;
     by rewrite Hout', Hout, app_assoc).
Qed.

Lemma appends_store_call op : appends (store_call op).
Proof.
  intros w. exists []. unfold store_call. rewrite app_nil_r.
  by destruct (fault op).
Qed.

#[local] Hint Resolve appends_ret appends_raise appends_diverge appends_print
  appends_gets appends_bind appends_try_except appends_try_finally
  appends_store_call : appends.

Lemma appends_generate_fake_user fuel E U : appends (generate_fake_user fuel E U).
Proof.
  intros w. exists []. rewrite app_nil_r.
  pose proof (generate_fake_user_spec fuel E U w) as H.
  destruct (generate_fake_user fuel E U w) as [r w']. by destruct H as (_ & H & _).
Qed.

Lemma appends_hash_password plain pepper : appends (hash_password plain pepper).
Proof. intros w. exists []. by rewrite app_nil_r. Qed.

#[local] Hint Resolve appends_generate_fake_user appends_hash_password : appends.

Lemma appends_generate_users fuel settings range :
  forall E U acc, appends (generate_users fuel settings range E U acc).
Proof.
  induction range as [|i range IH]; intros E U acc; cbn [generate_users].
  - auto with appends.
  - apply appends_bind; [auto with appends|]. intros _.
    apply appends_bind; [auto with appends|]. intros [ud [E' U']].
    apply appends_bind; [auto with appends|]. intros hashed.
    apply appends_bind; [auto with appends|]. intros _. apply IH.
Qed.

#[local] Hint Resolve appends_generate_users : appends.

Lemma appends_seed_users fuel settings count : appends (seed_users fuel settings count).
Proof.
  unfold seed_users, create_all, Session, seed_try_body, query_emails,
    query_usernames, add_all, commit, close.
  repeat first
    [ apply appends_bind; [|intros ?]
    | apply appends_try_finally
    | apply appends_try_except; [|intros []; unfold seed_handler, rollback]
    | apply appends_modify; intros ?; reflexivity
    | solve [auto with appends] ].
  intros w. exists []. rewrite app_nil_r.
  by destruct (flush (db_rows w) (session_new w)).
Qed.

Lemma advance_tick k w : advance k (tick_fake w) = tick_fake (advance k w).
Proof. induction k as [|k IH]; [reflexivity|]. simpl. by rewrite <- IH. Qed.

Lemma fake_calls_advance k w : fake_calls (advance k w) = (fake_calls w + k)%nat.
Proof.
  induction k as [|k IH]; [simpl; lia|].
  change (advance (S k) w) with (tick_fake (advance k w)).
  cbn [fake_calls tick_fake]. rewrite IH. lia.
Qed.

(** Colliding candidates are skipped, one iteration each. *)
Lemma generate_fake_user_skip k fuel E U w :
  (forall j, (j < k)%nat ->
     exists c, candidate (fake_calls w + j) = Some c /\ ~ fresh E U c) ->
  generate_fake_user (k + fuel) E U w = generate_fake_user fuel E U (advance k w).
Proof.
  revert w. induction k as [|k IH]; intros w Hcol; [reflexivity|].
  change (S k + fuel)%nat with (S (k + fuel)). rewrite generate_fake_user_step.
  destruct (Hcol 0%nat) as (c & Hc & Hnf); [lia|].
  rewrite Nat.add_0_r in Hc. unfold candidate in Hc.
  destruct (fake (fake_calls w)) as [e|d]; [discriminate|].
  destruct (EmailStr (Fake.email d)) as [e|]; [|discriminate].
  injection Hc as <-. cbv zeta. unfold fresh in Hnf.
  destruct (decide _) as [Hf|_]; [contradiction|].
  rewrite IH.
  - by rewrite advance_tick.
  - intros j Hj. destruct (Hcol (S j)) as (c & Hc & Hnc); [lia|].
    exists c. split; [|exact Hnc]. rewrite <- Hc. f_equal. simpl. lia.
Qed.

Lemma generate_fake_user_accept fuel E U w ud :
  candidate (fake_calls w) = Some ud -> fresh E U ud ->
  generate_fake_user (S fuel) E U w =
  (Ok (ud, ({[UserData.email ud]} ∪ E, {[UserData.username ud]} ∪ U)), tick_fake w).
Proof.
  intros Hc Hf. rewrite generate_fake_user_step. unfold candidate in Hc.
  destruct (fake (fake_calls w)) as [e|d]; [discriminate|].
  destruct (EmailStr (Fake.email d)) as [e|]; [|discriminate].
  injection Hc as <-. cbv zeta. unfold fresh in Hf.
  destruct (decide _) as [_|Hn]; [reflexivity|contradiction].
Qed.

Lemma generate_fake_user_first_fresh k fuel E U w ud :
  (forall j, (j < k)%nat ->
     exists c, candidate (fake_calls w + j) = Some c /\ ~ fresh E U c) ->
  candidate (fake_calls w + k) = Some ud -> fresh E U ud ->
  (k < fuel)%nat ->
  generate_fake_user fuel E U w =
  (Ok (ud, ({[UserData.email ud]} ∪ E, {[UserData.username ud]} ∪ U)), advance (S k) w).
Proof.
  intros Hcol Hc Hf Hlt.
  replace fuel with (k + S (fuel - S k))%nat by lia.
  rewrite generate_fake_user_skip by exact Hcol.
  apply generate_fake_user_accept; [|exact Hf]. by rewrite fake_calls_advance.
Qed.

Lemma generate_fake_user_still_running k E U w :
  (forall j, (j < k)%nat ->
     exists c, candidate (fake_calls w + j) = Some c /\ ~ fresh E U c) ->
  generate_fake_user k E U w = (Diverge, advance k w).
Proof.
  intros Hcol. replace k with (k + 0)%nat at 1 by lia.
  by rewrite generate_fake_user_skip.
Qed.


(** Among draws that all yield candidates, one of which is fresh, there is
    a first fresh one. *)
Lemma first_fresh E U k :
  forall pos ud,
  candidate (pos + k) = Some ud -> fresh E U ud ->
  (forall j, (j < k)%nat -> candidate (pos + j) <> None) ->
  exists k' ud',
    (k' <= k)%nat /\ candidate (pos + k') = Some ud' /\ fresh E U ud'
    /\ forall j, (j < k')%nat ->
         exists c, candidate (pos + j) = Some c /\ ~ fresh E U c.
Proof.
  induction k as [|k IH]; intros pos ud Hc Hf Hsome.
  - exists 0%nat, ud. split; [lia|]. split; [exact Hc|]. split; [exact Hf|].
    intros j Hj. lia.
  - destruct (candidate (pos + 0)) as [c|] eqn:Hc0; [|by destruct (Hsome 0%nat); [lia|]].
    destruct (decide ((UserData.email c ∉ E) /\ (UserData.username c ∉ U))) as [Hfc|Hnc].
    + exists 0%nat, c. split; [lia|]. split; [exact Hc0|]. split; [exact Hfc|].
      intros j Hj. lia.
    + destruct (IH (S pos) ud) as (k' & ud' & Hle & Hc' & Hf' & Hcol).
      * rewrite <- Hc. f_equal. lia.
      * exact Hf.
      * intros j Hj. replace (S pos + j)%nat with (pos + S j)%nat by lia.
        apply Hsome. lia.
      * exists (S k'), ud'. split; [lia|].
        split; [rewrite <- Hc'; f_equal; lia|]. split; [exact Hf'|].
        intros [|j] Hj; [exists c; by split|].
        destruct (Hcol j) as (c' & Hcj & Hncj); [lia|].
        exists c'. split; [|exact Hncj]. rewrite <- Hcj. f_equal. lia.
Qed.

(** *** The loop over [range(1, count + 1)] *)

Lemma generate_users_cons fuel settings i range E U acc w :
  generate_users fuel settings (i :: range) E U acc w =
  let w0 := add_stdout ("Generating user " +:+ pretty i +:+ "...") w in
  match generate_fake_user fuel E U w0 with
  | (Ok (ud, (E', U')), w1) =>
      let user := User.mk (UserData.first_name ud) (UserData.last_name ud)
                          (UserData.email ud) (UserData.username ud)
                          (bcrypt (hash_calls w1) (UserData.password ud +:+ salt settings)) in
      generate_users fuel settings range E' U' (acc ++ [user])
        (add_stdout ("User " +:+ pretty i +:+ ": " +:+ UserData.username ud +:+ " created.")
                    (tick_hash w1))
  | (Raise e, w1) => (Raise e, w1)
  | (Diverge, w1) => (Diverge, w1)
  end.
Proof.
  cbn [generate_users]. unfold bind at 1. unfold print at 1.
  unfold bind at 1.
  destruct (generate_fake_user fuel E U _) as [[[ud [E' U']]|e|] w1]; reflexivity.
Qed.

Lemma generate_users_spec fuel settings range :
  forall E U acc w,
  let '(r, w') := generate_users fuel settings range E U acc w in
  same_store w w' /\ (fake_calls w <= fake_calls w')%nat
  /\ match r with
     | Ok (users, (E', U')) =>
         exists new,
           users = acc ++ new /\ length new = length range
           /\ NoDup (User.emails new) /\ (forall e, e ∈ User.emails new -> e ∉ E)
           /\ NoDup (User.usernames new) /\ (forall u, u ∈ User.usernames new -> u ∉ U)
           /\ E' = list_to_set (User.emails new) ∪ E
           /\ U' = list_to_set (User.usernames new) ∪ U
     | _ => True
     end.
Proof.
  induction range as [|i range IH]; intros E U acc w.
  - simpl. split; [apply same_store_refl|]. split; [lia|].
    exists []. rewrite app_nil_r. simpl.
    repeat split; try constructor; try set_solver.
  - rewrite generate_users_cons. cbv zeta.
    pose proof (generate_fake_user_spec fuel E U
                  (add_stdout ("Generating user " +:+ pretty i +:+ "...") w)) as Hg.
    destruct (generate_fake_user fuel E U _) as [[[ud [E' U']]|e|] w1].
    + destruct Hg as (Hs & _ & _ & Hc & (Hfe & Hfu) & -> & -> & _ & _).
      match goal with |- context [generate_users _ _ _ _ _ ?a ?w2] =>
        specialize (IH ({[UserData.email ud]} ∪ E) ({[UserData.username ud]} ∪ U) a w2)
      end.
      destruct (generate_users _ _ _ _ _ _ _) as [r w'].
      destruct IH as (Hs' & Hc' & Hr).
      split; [|split].
      * destruct Hs as (? & ? & ?), Hs' as (? & ? & ?).
        unfold same_store. simpl in *. repeat split; congruence.
      * simpl in *. lia.
      * destruct r as [[users [E'' U'']]| |]; [|exact I|exact I].
        destruct Hr as (new & -> & Hlen & Hne & Hde & Hnu & Hdu & -> & ->).
        eexists (_ :: new). rewrite <- app_assoc. split; [reflexivity|].
        simpl. split; [congruence|].
        split; [constructor; [|assumption]; intros Hin; apply Hde in Hin; set_solver|].
        split; [intros e [->|Hin]%elem_of_cons;
                [assumption | apply Hde in Hin; set_solver]|].
        split; [constructor; [|assumption]; intros Hin; apply Hdu in Hin; set_solver|].
        split; [intros u [->|Hin]%elem_of_cons;
                [assumption | apply Hdu in Hin; set_solver]|].
        split; set_solver.
    + destruct Hg as ((? & ? & ?) & _ & _ & Hc & _). unfold same_store. simpl in *.
      repeat split; assumption.
    + destruct Hg as ((? & ? & ?) & _ & _ & Hc & _). unfold same_store. simpl in *.
      repeat split; assumption.
Qed.

(** *** The body of the [try] *)

Lemma flush_app rows pending rows' :
  flush rows pending = Some rows' -> rows' = rows ++ pending.
Proof.
  revert rows. induction pending as [|u pending IH]; intros rows; simpl.
  - intros [= <-]. by rewrite app_nil_r.
  - unfold insert_row. destruct (decide _); [discriminate|].
    intros ->%IH. by rewrite <- app_assoc.
Qed.

Lemma seed_try_body_spec fuel settings count w :
  session_new w = [] ->
  let '(r, w') := seed_try_body fuel settings count w in
  (fake_calls w <= fake_calls w')%nat
  /\ match r with
     | Ok _ =>
         exists users,
           store_log w' = store_log w
                          ++ [OpQueryEmails; OpQueryUsernames; OpAddAll users; OpCommit]
           /\ batch_ok (db_rows w) count users
           /\ fault (OpAddAll users) = None /\ fault OpCommit = None
           /\ flush (db_rows w) users = Some (db_rows w')
           /\ db_rows w' = db_rows w ++ users
           /\ session_new w' = []
           /\ last (stdout w') = Some (success_line count)
     | Raise e =>
         db_rows w' = db_rows w
         /\ exists ops, store_log w' = store_log w ++ ops
                        /\ body_trace (db_rows w) count ops
                        /\ (fake_calls w' = fake_calls w
                            \/ exists rest,
                                 ops = OpQueryEmails :: OpQueryUsernames :: rest)
                        /\ (session_new w' = [] \/ In OpCommit ops)
     | Diverge =>
         db_rows w' = db_rows w
         /\ store_log w' = store_log w ++ [OpQueryEmails; OpQueryUsernames]
         /\ fault OpQueryEmails = None /\ fault OpQueryUsernames = None
     end.
Proof.
  intros Hnew. unfold seed_try_body.
  unfold query_emails, query_usernames, add_all, commit.
  unfold bind, print, store_call, gets, modify. wsimpl.
  destruct (fault OpQueryEmails) as [e|] eqn:HQE.
  { split; [wsimpl; lia|]. split; [reflexivity|].
    eexists. split; [reflexivity|]. split; [constructor|].
    split; left; [reflexivity|assumption]. }
  destruct (fault OpQueryUsernames) as [e|] eqn:HQU.
  { split; [wsimpl; lia|]. split; [reflexivity|].
    eexists. wsimpl. rewrite <- app_assoc. split; [reflexivity|].
    split; [by constructor|]. split; [right; by eexists|left; assumption]. }
  match goal with |- context [generate_users ?f ?s ?r ?E ?U ?a ?w0] =>
    pose proof (generate_users_spec f s r E U a w0) as Hg;
    destruct (generate_users f s r E U a w0) as [[[users [E' U']]|e|] w1]
  end; destruct Hg as ((Hrows & Hsess & Hlog) & Hc & Hr);
    wsimpl in Hrows; wsimpl in Hsess; wsimpl in Hlog; wsimpl in Hc.
  - destruct Hr as (new & Hus & Hlen & Hne & Hde & Hnu & Hdu & _ & _).
    cbn [app] in Hus. subst users. cbn [fst].
    assert (Hok : batch_ok (db_rows w) count new).
    { unfold batch_ok. rewrite Hlen, length_seqZ.
      split; [reflexivity|]. split; [assumption|].
      split; [intros e He; specialize (Hde e He);
              by rewrite elem_of_list_to_set in Hde|].
      split; [assumption|].
      intros u Hu; specialize (Hdu u Hu). by rewrite elem_of_list_to_set in Hdu. }
    destruct (fault (OpAddAll new)) as [e|] eqn:HAA.
    { split; [wsimpl; lia|]. wsimpl.
      split; [assumption|]. eexists. rewrite Hlog, <- !app_assoc.
      split; [reflexivity|]. split; [apply bt_add_all; [assumption|congruence]|].
      split; [right; by eexists|left; congruence]. }
    wsimpl.
    destruct (fault OpCommit) as [e|] eqn:HC.
    { split; [wsimpl; lia|]. wsimpl.
      split; [assumption|]. eexists. rewrite Hlog, <- !app_assoc.
      split; [reflexivity|].
      split; [apply bt_commit; [assumption|assumption|]; left; congruence|].
      split; [right; by eexists|right; simpl; tauto]. }
    wsimpl.
    rewrite Hsess, Hnew, Hrows. cbn [app].
    destruct (flush (db_rows w) new) as [rows'|] eqn:Hfl.
    + split; [wsimpl; lia|]. exists new.
      wsimpl.
      rewrite Hlog, <- !app_assoc.
      split; [reflexivity|]. split; [assumption|].
      split; [assumption|]. split; [first [assumption|reflexivity]|].
      split; [first [assumption|reflexivity]|]. split; [by apply flush_app|].
      split; [reflexivity|]. rewrite !app_assoc. apply last_snoc.
    + split; [wsimpl; lia|]. wsimpl.
      split; [assumption|]. eexists. rewrite Hlog, <- !app_assoc.
      split; [reflexivity|].
      split; [apply bt_commit; [assumption|assumption|]; by right|].
      split; [right; by eexists|right; simpl; tauto].
  - split; [wsimpl; lia|]. split; [assumption|].
    eexists. rewrite Hlog. wsimpl. rewrite <- app_assoc.
    split; [reflexivity|]. split; [by constructor|].
    split; [right; by eexists|left; congruence].
  - split; [wsimpl; lia|]. split; [assumption|].
    rewrite Hlog. wsimpl. rewrite <- app_assoc. by repeat split.
Qed.

(** *** Handlers and cleanup *)

Lemma seed_handler_spec e w :
  let '(r, w') := seed_handler e w in
  db_rows w' = db_rows w
  /\ store_log w' = store_log w ++ [OpRollback]
  /\ fake_calls w' = fake_calls w
  /\ r <> Diverge
  /\ (fault OpRollback = None -> session_new w' = [] /\ r = Ok tt)
  /\ (session_new w = [] -> session_new w' = []).
Proof.
  destruct e as [m|m|m]; unfold seed_handler, rollback, bind, store_call, modify, print;
    destruct (fault OpRollback); wsimpl;
    (split; [reflexivity|]); (split; [reflexivity|]); (split; [reflexivity|]);
    (split; [discriminate|]); (split; [|tauto]); first [discriminate | by intros _].
Qed.

Lemma close_spec w :
  let '(r, w') := bind close (fun _ => print "Session closed.") w in
  db_rows w' = db_rows w
  /\ store_log w' = store_log w ++ [OpClose]
  /\ fake_calls w' = fake_calls w
  /\ r <> Diverge
  /\ (fault OpClose = None -> session_new w' = [] /\ r = Ok tt)
  /\ (session_new w = [] -> session_new w' = [])
  /\ (forall line, line ∈ stdout w -> line ∈ stdout w').
Proof.
  unfold close, bind, store_call, modify, print.
  destruct (fault OpClose); wsimpl;
    (split; [reflexivity|]); (split; [reflexivity|]); (split; [reflexivity|]);
    (split; [discriminate|]); (split; [first [discriminate | by intros _]|]);
    (split; [tauto|]); set_solver.
Qed.

(** *** Every run of [seed_users]

    The store calls of a run have one of five shapes: schema creation
    failed; the session could not be opened; the generator never returned;
    the body raised and the handler rolled back; the batch was committed. *)
Lemma seed_users_run fuel settings count w :
  let '(r, w') := seed_users fuel settings count w in
  let rows := db_rows w in
  exists ops,
    store_log w' = store_log w ++ ops
    /\ (fake_calls w' = fake_calls w
        \/ exists rest,
             ops = [OpCreateAll; OpSession; OpQueryEmails; OpQueryUsernames] ++ rest)
    /\ ((ops = [OpCreateAll] /\ db_rows w' = rows /\ exists e, r = Raise e)
        \/ (ops = [OpCreateAll; OpSession] /\ db_rows w' = rows /\ exists e, r = Raise e)
        \/ (ops = [OpCreateAll; OpSession; OpQueryEmails; OpQueryUsernames]
            /\ db_rows w' = rows /\ r = Diverge)
        \/ (exists body,
              body_trace rows count body
              /\ ops = [OpCreateAll; OpSession] ++ body ++ [OpRollback; OpClose]
              /\ db_rows w' = rows /\ r <> Diverge
              /\ (fault OpRollback = None \/ fault OpClose = None -> session_new w' = [])
              /\ (fault OpRollback = None -> fault OpClose = None -> r = Ok tt))
        \/ (exists users,
              ops = [OpCreateAll; OpSession; OpQueryEmails; OpQueryUsernames;
                     OpAddAll users; OpCommit; OpClose]
              /\ batch_ok rows count users
              /\ fault (OpAddAll users) = None /\ fault OpCommit = None
              /\ flush rows users = Some (rows ++ users)
              /\ db_rows w' = rows ++ users
              /\ session_new w' = []
              /\ success_line count ∈ stdout w'
              /\ r <> Diverge
              /\ (fault OpClose = None -> r = Ok tt))).
Proof.
  unfold seed_users, create_all, Session.
  unfold bind at 1. unfold print at 1. unfold bind at 1. unfold store_call at 1.
  destruct (fault OpCreateAll) as [e|] eqn:HCA.
  { wsimpl. exists [OpCreateAll]. split; [reflexivity|]. split; [by left|].
    left. eauto. }
  unfold bind at 1. unfold bind at 1. unfold store_call at 1.
  destruct (fault OpSession) as [e|] eqn:HS.
  { wsimpl. exists [OpCreateAll; OpSession]. rewrite <- app_assoc.
    split; [reflexivity|]. split; [by left|]. right. left. eauto. }
  unfold modify at 1. unfold try_finally, try_except.
  match goal with |- context [seed_try_body _ _ _ ?w0] =>
    pose proof (seed_try_body_spec fuel settings count w0 eq_refl) as Hb;
    destruct (seed_try_body fuel settings count w0) as [[[]|e|] wb]
  end; destruct Hb as (Hc & Hb); wsimpl in Hc; wsimpl in Hb.
  - (* the batch was committed *)
    destruct Hb as (users & Hlog & Hok & HAA & HC & Hfl & Hrows & Hsess & Hlast).
    pose proof (close_spec wb) as Hcl.
    destruct (bind close _ wb) as [rc wc].
    destruct Hcl as (Hr1 & Hl1 & Hf1 & Hd1 & Hs1 & Hs2 & Hout).
    assert (Hlog' : store_log wc = store_log w
              ++ [OpCreateAll; OpSession; OpQueryEmails; OpQueryUsernames;
                  OpAddAll users; OpCommit; OpClose]).
    { rewrite Hl1, Hlog, <- !app_assoc. reflexivity. }
    assert (Hshape :
      db_rows wc = db_rows w ++ users /\ session_new wc = []
      /\ success_line count ∈ stdout wc).
    { split; [congruence|]. split; [by apply Hs2|].
      apply Hout. apply last_Some_elem_of. exact Hlast. }
    destruct Hshape as (Hrows' & Hsess' & Hline).
    assert (Hfl' : flush (db_rows w) users = Some (db_rows w ++ users))
      by (rewrite Hfl; congruence).
    destruct rc as [[]|e|]; [| |congruence];
      (eexists; split; [exact Hlog'|]; split; [right; by eexists|];
       do 4 right; exists users;
       repeat (split; [first [reflexivity|assumption|discriminate]|]));
      [by intros _ | intros Hn; by destruct (Hs1 Hn)].
  - (* the body raised *)
    destruct Hb as (Hrows & body & Hlog & Htr & Hdraw & Hsb).
    pose proof (seed_handler_spec e wb) as Hh.
    destruct (seed_handler e wb) as [rh wh].
    destruct Hh as (Hr0 & Hl0 & Hf0 & Hd0 & Hs0 & Hs0').
    pose proof (close_spec wh) as Hcl.
    destruct (bind close _ wh) as [rc wc].
    destruct Hcl as (Hr1 & Hl1 & Hf1 & Hd1 & Hs1 & Hs2 & Hout).
    assert (Hlog' : store_log wc = store_log w
              ++ [OpCreateAll; OpSession] ++ body ++ [OpRollback; OpClose]).
    { rewrite Hl1, Hl0, Hlog, <- !app_assoc. reflexivity. }
    assert (Hdraw' : fake_calls wc = fake_calls w
              \/ exists rest, [OpCreateAll; OpSession] ++ body ++ [OpRollback; OpClose]
                   = [OpCreateAll; OpSession; OpQueryEmails; OpQueryUsernames] ++ rest).
    { destruct Hdraw as [Hd|[rest ->]]; [left; congruence|right; by eexists]. }
    assert (Hsess : fault OpRollback = None \/ fault OpClose = None
                    -> session_new wc = []).
    { intros [Hn|Hn]; [apply Hs2; by destruct (Hs0 Hn) | by destruct (Hs1 Hn)]. }
    assert (Hres : forall rf, (rh = Ok tt -> rc = Ok tt -> rf = Ok tt) ->
              fault OpRollback = None -> fault OpClose = None -> rf = Ok tt).
    { intros rf Hrf Hn1 Hn2. apply Hrf; [by destruct (Hs0 Hn1) | by destruct (Hs1 Hn2)]. }
    destruct rh as [[]|eh|]; [| |congruence];
      (destruct rc as [[]|ec|]; [| |congruence]);
      (eexists; split; [exact Hlog'|]; split; [exact Hdraw'|];
       do 3 right; left; exists body;
       split; [exact Htr|]; split; [reflexivity|]; split; [congruence|];
       split; [discriminate|]; split; [exact Hsess|]; apply Hres; congruence).
  - (* the generator did not return *)
    destruct Hb as (Hrows & Hlog & _).
    exists [OpCreateAll; OpSession; OpQueryEmails; OpQueryUsernames].
    split; [rewrite Hlog, <- !app_assoc; reflexivity|].
    split; [right; exists []; reflexivity|].
    right. right. left. by repeat split.
Qed.

Lemma body_trace_add_all rows count body users :
  body_trace rows count body -> OpAddAll users ∈ body -> batch_ok rows count users.
Proof.
  intros Htr Hin.
  destruct Htr; rewrite ?elem_of_cons, elem_of_nil in Hin; naive_solver.
Qed.

Lemma count_ops_app p l1 l2 :
  count_ops p (l1 ++ l2) = (count_ops p l1 + count_ops p l2)%nat.
Proof. unfold count_ops. by rewrite filter_app, length_app. Qed.

Lemma body_trace_counts rows count body :
  body_trace rows count body ->
  (count_ops is_commit body <= 1)%nat /\ (count_ops is_add_all body <= 1)%nat
  /\ (count_ops is_query_emails body <= 1)%nat
  /\ (count_ops is_query_usernames body <= 1)%nat
  /\ count_ops is_rollback body = 0%nat.
Proof. intros []; vm_compute; repeat split; lia. Qed.

(** ** The batch is unique *)

(** C1. In every run of [seed_users], the batch handed to the session has
    [count] rows whose e-mails are pairwise distinct and distinct from every
    e-mail in the store at the start of the run, and likewise for the user
    names; and [generate_fake_user] returns a candidate only when its e-mail
    and its user name are both absent from the sets it was given. *)
Theorem generated_batch_unique fuel settings count w :
  (forall users,
      OpAddAll users ∈ store_log (seed_users fuel settings count w).2 ->
      OpAddAll users ∈ store_log w \/ batch_ok (db_rows w) count users)
  /\ (forall E U w0 ud E' U' w1,
        generate_fake_user fuel E U w0 = (Ok (ud, (E', U')), w1) ->
        (UserData.email ud ∉ E) /\ (UserData.username ud ∉ U)).
Proof.
  split.
  - intros users Hin.
    pose proof (seed_users_run fuel settings count w) as Hrun.
    destruct (seed_users fuel settings count w) as [r w']. cbn [snd] in Hin.
    destruct Hrun as (ops & Hlog & _ & Hshape).
    rewrite Hlog in Hin. apply elem_of_app in Hin as [Hin|Hin]; [by left|right].
    destruct Hshape as [(-> & _)|[(-> & _)|[(-> & _)|[(body & Htr & -> & _)|
                        (us & -> & Hok & _)]]]].
    + rewrite ?elem_of_cons, elem_of_nil in Hin. naive_solver.
    + rewrite ?elem_of_cons, elem_of_nil in Hin. naive_solver.
    + rewrite ?elem_of_cons, elem_of_nil in Hin. naive_solver.
    + eapply body_trace_add_all; [exact Htr|].
      rewrite ?elem_of_app, ?elem_of_cons, elem_of_nil in Hin. naive_solver.
    + rewrite ?elem_of_cons, elem_of_nil in Hin. naive_solver.
  - intros E U w0 ud E' U' w1 Hrun.
    pose proof (generate_fake_user_spec fuel E U w0) as Hg. rewrite Hrun in Hg.
    destruct Hg as (_ & _ & _ & _ & Hf & _). exact Hf.
Qed.

(** ** All or nothing *)

(** C2. In every run of [seed_users] the store ends with the rows it had or
    with those rows and the whole batch, never a part of it, and the batch is
    submitted and committed at most once.  When the submission or the commit
    fails, whatever the error (a fault of [add_all], a fault of [commit], a
    violated unique constraint in the flush), the rows of the store are those
    from before the run, the handler has called [rollback], and the session
    is left empty as soon as [rollback] or [close] goes through. *)
Theorem commit_failure_rolls_back fuel settings count w ops :
  let run := seed_users fuel settings count w in
  store_log run.2 = store_log w ++ ops ->
  (db_rows run.2 = db_rows w
   \/ exists users, OpAddAll users ∈ ops /\ db_rows run.2 = db_rows w ++ users)
  /\ (count_ops is_add_all ops <= 1)%nat
  /\ (count_ops is_commit ops <= 1)%nat
  /\ (forall users,
        OpAddAll users ∈ ops ->
        fault (OpAddAll users) <> None \/ fault OpCommit <> None
        \/ flush (db_rows w) users = None ->
        db_rows run.2 = db_rows w
        /\ OpRollback ∈ ops
        /\ count_ops is_rollback ops = 1%nat
        /\ run.1 <> Diverge
        /\ (fault OpRollback = None \/ fault OpClose = None -> session_new run.2 = [])).
Proof.
  cbv zeta. pose proof (seed_users_run fuel settings count w) as Hrun.
  destruct (seed_users fuel settings count w) as [r w']. cbn [fst snd].
  destruct Hrun as (ops0 & Hlog & _ & Hshape). intros Hops.
  rewrite Hlog in Hops. apply app_inv_head in Hops as <-.
  destruct Hshape as [(-> & Hrows & _)|[(-> & Hrows & _)|[(-> & Hrows & _)|
                      [(body & Htr & -> & Hrows & Hnd & Hsess & _)|
                       (us & -> & Hok & HAA & HC & Hfl & Hrows & _)]]]].
  - split; [by left|]. split; [vm_compute; lia|]. split; [vm_compute; lia|].
    intros users Hin. rewrite ?elem_of_cons, elem_of_nil in Hin. naive_solver.
  - split; [by left|]. split; [vm_compute; lia|]. split; [vm_compute; lia|].
    intros users Hin. rewrite ?elem_of_cons, elem_of_nil in Hin. naive_solver.
  - split; [by left|]. split; [vm_compute; lia|]. split; [vm_compute; lia|].
    intros users Hin. rewrite ?elem_of_cons, elem_of_nil in Hin. naive_solver.
  - destruct (body_trace_counts _ _ _ Htr) as (Hcc & Hca & _ & _ & Hcr).
    split; [by left|].
    rewrite !count_ops_app.
    split; [change (count_ops is_add_all [OpCreateAll; OpSession]) with 0%nat;
            change (count_ops is_add_all [OpRollback; OpClose]) with 0%nat; lia|].
    split; [change (count_ops is_commit [OpCreateAll; OpSession]) with 0%nat;
            change (count_ops is_commit [OpRollback; OpClose]) with 0%nat; lia|].
    intros users _ _. split; [exact Hrows|].
    split; [rewrite !elem_of_app, !elem_of_cons; tauto|].
    split; [rewrite Hcr; reflexivity|]. split; assumption.
  - split; [right; exists us; split; [|exact Hrows];
            rewrite !elem_of_cons; tauto|].
    split; [vm_compute; lia|]. split; [vm_compute; lia|].
    intros users Hin Herr. rewrite ?elem_of_cons, elem_of_nil in Hin.
    assert (users = us) as -> by naive_solver.
    rewrite HAA, HC, Hfl in Herr. naive_solver.
Qed.

(** ** A malformed candidate *)


(** ** The duplicate index *)

(** C8. In every run of [seed_users] each of the two sets is read from the
    store at most once; a run that draws a candidate has read both, once,
    before the first draw, and reads neither again.  From then on the sets
    only serve the membership test of [generate_fake_user] and only grow:
    an accepted candidate adds its e-mail and its user name, and nothing is
    ever removed, neither by one call of the generator nor over the loop. *)
Theorem duplicate_index_loaded_once fuel settings count w ops :
  let run := seed_users fuel settings count w in
  store_log run.2 = store_log w ++ ops ->
  (count_ops is_query_emails ops <= 1)%nat
  /\ (count_ops is_query_usernames ops <= 1)%nat
  /\ (fake_calls run.2 <> fake_calls w ->
      exists rest,
        ops = [OpCreateAll; OpSession; OpQueryEmails; OpQueryUsernames] ++ rest
        /\ count_ops is_query_emails rest = 0%nat
        /\ count_ops is_query_usernames rest = 0%nat)
  /\ (forall E U w0 ud E' U' w1,
        generate_fake_user fuel E U w0 = (Ok (ud, (E', U')), w1) ->
        E' = {[UserData.email ud]} ∪ E /\ U' = {[UserData.username ud]} ∪ U
        /\ E ⊆ E' /\ U ⊆ U')
  /\ (forall range E U acc w0 users E' U' w1,
        generate_users fuel settings range E U acc w0 = (Ok (users, (E', U')), w1) ->
        E ⊆ E' /\ U ⊆ U').
Proof.
  cbv zeta. pose proof (seed_users_run fuel settings count w) as Hrun.
  destruct (seed_users fuel settings count w) as [r w']. cbn [fst snd].
  destruct Hrun as (ops0 & Hlog & Hdraw & Hshape). intros Hops.
  rewrite Hlog in Hops. apply app_inv_head in Hops as <-.
  assert (Hcount : (count_ops is_query_emails ops0 <= 1)%nat
                   /\ (count_ops is_query_usernames ops0 <= 1)%nat).
  { destruct Hshape as [(-> & _)|[(-> & _)|[(-> & _)|[(body & Htr & -> & _)|
                        (us & -> & _)]]]]; try (vm_compute; lia).
    destruct (body_trace_counts _ _ _ Htr) as (_ & _ & Hqe & Hqu & _).
    rewrite !count_ops_app.
    change (count_ops is_query_emails [OpCreateAll; OpSession]) with 0%nat.
    change (count_ops is_query_emails [OpRollback; OpClose]) with 0%nat.
    change (count_ops is_query_usernames [OpCreateAll; OpSession]) with 0%nat.
    change (count_ops is_query_usernames [OpRollback; OpClose]) with 0%nat.
    lia. }
  destruct Hcount as [Hqe Hqu].
  split; [exact Hqe|]. split; [exact Hqu|]. split; [|split].
  - intros Hne. destruct Hdraw as [Heq|[rest ->]]; [contradiction|].
    exists rest. split; [reflexivity|].
    rewrite count_ops_app in Hqe, Hqu.
    change (count_ops is_query_emails
              [OpCreateAll; OpSession; OpQueryEmails; OpQueryUsernames])
      with 1%nat in Hqe.
    change (count_ops is_query_usernames
              [OpCreateAll; OpSession; OpQueryEmails; OpQueryUsernames])
      with 1%nat in Hqu.
    lia.
  - intros E U w0 ud E' U' w1 Hgen.
    pose proof (generate_fake_user_spec fuel E U w0) as Hg. rewrite Hgen in Hg.
    destruct Hg as (_ & _ & _ & _ & _ & -> & -> & _).
    repeat split; set_solver.
  - intros range E U acc w0 users E' U' w1 Hgen.
    pose proof (generate_users_spec fuel settings range E U acc w0) as Hg.
    rewrite Hgen in Hg. destruct Hg as (_ & _ & new & _ & _ & _ & _ & _ & _ & -> & ->).
    split; set_solver.
Qed.

(** ** A count that is not positive *)

(** C9. With a count of zero or less and a store that does not fail,
    [seed_users] draws no candidate and hashes nothing, adds and commits an
    empty batch, leaves the rows of the store as they were, prints the
    success line for that count and returns normally. *)
Theorem nonpositive_count_succeeds fuel settings count w :
  count <= 0 -> (forall op, fault op = None) ->
  let run := seed_users fuel settings count w in
  run.1 = Ok tt
  /\ db_rows run.2 = db_rows w
  /\ fake_calls run.2 = fake_calls w
  /\ hash_calls run.2 = hash_calls w
  /\ store_log run.2 = store_log w
       ++ [OpCreateAll; OpSession; OpQueryEmails; OpQueryUsernames; OpAddAll [];
           OpCommit; OpClose]
  /\ stdout run.2 = stdout w
       ++ ["Creating tables if they don't exist...";
           "Fetching existing emails and usernames to prevent duplicates...";
           "Found " +:+ pretty (size (list_to_set (User.emails (db_rows w)) : gset string))
             +:+ " existing emails and "
             +:+ pretty (size (list_to_set (User.usernames (db_rows w)) : gset string))
             +:+ " existing usernames.";
           "Adding users to the session...";
           "Committing the session...";
           "Successfully added " +:+ pretty count +:+ " users to the database.";
           "Session closed."].
Proof.
  intros Hcount Hnf. cbv zeta.
  unfold seed_users, create_all, Session, try_finally, try_except, seed_try_body,
    query_emails, query_usernames, add_all, commit, close.
  unfold bind, print, store_call, gets, modify. rewrite !Hnf. wsimpl.
  rewrite seqZ_nil by lia. cbn [generate_users ret fst snd]. rewrite ?Hnf.
  cbn [fst snd]. wsimpl. cbn [app flush]. rewrite ?Hnf. cbn [fst snd]. wsimpl.
  split; [reflexivity|]. split; [reflexivity|]. split; [reflexivity|].
  split; [reflexivity|]. split; [by rewrite <- !app_assoc|].
  unfold success_line. by rewrite <- !app_assoc.
Qed.

(** ** The skeleton of [seed_users]: unguarded calls, handlers, cleanup *)

(** [create_all] and [Session()] run before the [try]: their exceptions
    leave [seed_users] at once. *)
Lemma seed_users_unguarded fuel settings count w :
  seed_users fuel settings count w =
  let w0 := add_store_log OpCreateAll
              (add_stdout "Creating tables if they don't exist..." w) in
  match fault OpCreateAll with
  | Some e => (Raise e, w0)
  | None =>
      match fault OpSession with
      | Some e => (Raise e, add_store_log OpSession w0)
      | None =>
          try_finally (try_except (seed_try_body fuel settings count) seed_handler)
            (bind close (fun _ => print "Session closed."))
            (set_session_new [] (add_store_log OpSession w0))
      end
  end.
Proof.
  unfold seed_users, create_all, Session. unfold bind at 1 2 3 4.
  unfold print at 1. unfold store_call at 1 2. unfold modify at 1.
  destruct (fault OpCreateAll); [reflexivity|].
  destruct (fault OpSession); reflexivity.
Qed.

(** What the handlers and the [finally] clause make of the outcome of any
    body. *)
Lemma guarded_result (body : M unit) w :
  let run := try_finally (try_except body seed_handler)
               (bind close (fun _ => print "Session closed.")) w in
  let wb := (body w).2 in
  match (body w).1 with
  | Diverge => run = (Diverge, wb)
  | Ok _ =>
      store_log run.2 = store_log wb ++ [OpClose]
      /\ db_rows run.2 = db_rows wb
      /\ fake_calls run.2 = fake_calls wb /\ hash_calls run.2 = hash_calls wb
      /\ match fault OpClose with
         | Some e => run.1 = Raise e /\ stdout run.2 = stdout wb
         | None => run.1 = Ok tt /\ stdout run.2 = stdout wb ++ ["Session closed."]
                   /\ session_new run.2 = []
         end
  | Raise e0 =>
      store_log run.2 = store_log wb ++ [OpRollback; OpClose]
      /\ db_rows run.2 = db_rows wb
      /\ fake_calls run.2 = fake_calls wb /\ hash_calls run.2 = hash_calls wb
      /\ match fault OpRollback, fault OpClose with
         | None, None =>
             run.1 = Ok tt /\ session_new run.2 = []
             /\ stdout run.2 = stdout wb ++ [error_line e0; "Session closed."]
         | Some e1, None =>
             run.1 = Raise e1 /\ session_new run.2 = []
             /\ stdout run.2 = stdout wb ++ ["Session closed."]
         | None, Some e2 =>
             run.1 = Raise e2 /\ session_new run.2 = []
             /\ stdout run.2 = stdout wb ++ [error_line e0]
         | Some _, Some e2 =>
             run.1 = Raise e2 /\ session_new run.2 = session_new wb
             /\ stdout run.2 = stdout wb
         end
  end.
Proof.
  cbv zeta. unfold try_finally, try_except.
  destruct (body w) as [[[]|e0|] wb]; cbn [fst snd]; [| |reflexivity].
  - unfold close, bind, store_call, modify, print.
    destruct (fault OpClose); cbn [fst snd]; wsimpl; by repeat split.
  - destruct e0 as [m|m|m];
      unfold seed_handler, rollback, close, bind, store_call, modify, print;
      destruct (fault OpRollback), (fault OpClose); cbn [fst snd error_line]; wsimpl;
      rewrite <- ?app_assoc; by repeat split.
Qed.

(** A run whose session was opened: it hangs in the generator, or commits
    and closes, or handles the exception of the body, rolls back and closes. *)
Lemma seed_users_opened fuel settings count w :
  fault OpCreateAll = None -> fault OpSession = None ->
  let run := seed_users fuel settings count w in
  (run.1 = Diverge
   /\ store_log run.2 = store_log w
        ++ [OpCreateAll; OpSession; OpQueryEmails; OpQueryUsernames]
   /\ db_rows run.2 = db_rows w)
  \/ (exists users out,
        store_log run.2 = store_log w
          ++ [OpCreateAll; OpSession; OpQueryEmails; OpQueryUsernames;
              OpAddAll users; OpCommit; OpClose]
        /\ batch_ok (db_rows w) count users
        /\ db_rows run.2 = db_rows w ++ users
        /\ match fault OpClose with
           | Some e => run.1 = Raise e /\ stdout run.2 = out ++ [success_line count]
           | None =>
               run.1 = Ok tt /\ session_new run.2 = []
               /\ stdout run.2 = out ++ [success_line count; "Session closed."]
           end)
  \/ (exists e0 body out,
        body_trace (db_rows w) count body
        /\ store_log run.2 = store_log w
             ++ [OpCreateAll; OpSession] ++ body ++ [OpRollback; OpClose]
        /\ db_rows run.2 = db_rows w
        /\ match fault OpRollback, fault OpClose with
           | None, None =>
               run.1 = Ok tt /\ session_new run.2 = []
               /\ stdout run.2 = out ++ [error_line e0; "Session closed."]
           | Some e1, None =>
               run.1 = Raise e1 /\ session_new run.2 = []
               /\ stdout run.2 = out ++ ["Session closed."]
           | None, Some e2 =>
               run.1 = Raise e2 /\ session_new run.2 = []
               /\ stdout run.2 = out ++ [error_line e0]
           | Some _, Some e2 => run.1 = Raise e2
           end).
Proof.
  intros HCA HS. cbv zeta. rewrite seed_users_unguarded, HCA, HS. cbv zeta.
  match goal with |- context [try_finally _ _ ?w2] =>
    pose proof (guarded_result (seed_try_body fuel settings count) w2) as Hg;
    pose proof (seed_try_body_spec fuel settings count w2 eq_refl) as Hb;
    set (run := try_finally _ _ w2) in *
  end.
  cbv zeta in Hg.
  destruct (seed_try_body fuel settings count _) as [[[]|e0|] wb];
    cbn [fst snd] in Hg; destruct Hb as (_ & Hb); wsimpl in Hb.
  - right. left.
    destruct Hb as (users & Hlog & Hok & _ & _ & _ & Hrows & _ & Hlast).
    destruct Hg as (Hl & Hr & _ & _ & Hres).
    apply last_Some in Hlast as [out Hout].
    exists users, out. rewrite Hl, Hlog, Hr, Hrows, <- !app_assoc.
    split; [reflexivity|]. split; [exact Hok|]. split; [reflexivity|].
    destruct (fault OpClose); rewrite Hout in Hres; rewrite <- ?app_assoc in Hres;
      [exact Hres|]. destruct Hres as (? & ? & ?). by repeat split.
  - right. right.
    destruct Hb as (Hrows & body & Hlog & Htr & _).
    destruct Hg as (Hl & Hr & _ & _ & Hres).
    exists e0, body, (stdout wb). rewrite Hl, Hlog, Hr, Hrows, <- !app_assoc.
    split; [exact Htr|]. split; [reflexivity|]. split; [reflexivity|].
    destruct (fault OpRollback), (fault OpClose); try exact Hres. apply Hres.
  - left. destruct Hb as (Hrows & Hlog & _). rewrite Hg. cbn [fst snd].
    rewrite Hlog, <- !app_assoc. by repeat split.
Qed.

Lemma error_line_not_success e count : error_line e <> success_line count.
Proof. destruct e; unfold error_line, success_line; cbn; discriminate. Qed.

Lemma body_trace_no_close rows count body :
  body_trace rows count body -> count_ops is_close body = 0%nat.
Proof. intros []; reflexivity. Qed.

(** X1. An exception leaves [seed_users] only from a call that no handler
    guards: it is the exception of [create_all], of [Session()], of the
    [rollback] of a handler or of the [close] of the [finally] clause.
    Whatever is raised inside the [try] is caught. *)
Theorem seed_users_raises_unguarded fuel settings count w e :
  (seed_users fuel settings count w).1 = Raise e ->
  fault OpCreateAll = Some e \/ fault OpSession = Some e
  \/ fault OpRollback = Some e \/ fault OpClose = Some e.
Proof.
  destruct (fault OpCreateAll) as [e1|] eqn:HCA.
  { rewrite seed_users_unguarded, HCA. cbn. intros [= ->]. by left. }
  destruct (fault OpSession) as [e1|] eqn:HS.
  { rewrite seed_users_unguarded, HCA, HS. cbn. intros [= ->]. right. by left. }
  intros Hr. right. right.
  destruct (seed_users_opened fuel settings count w HCA HS)
    as [(Hd & _)|[(users & out & _ & _ & _ & Hres)|(e0 & body & out & _ & _ & _ & Hres)]].
  - congruence.
  - destruct (fault OpClose); destruct Hres as (Hres & _);
      first [right; congruence | congruence].
  - destruct (fault OpRollback), (fault OpClose);
      try destruct Hres as (Hres & _);
      first [left; congruence | right; congruence | congruence].
Qed.

(** X2. When [create_all], [Session()], [rollback] and [close] go through,
    a run of [seed_users] that ends returns normally with an empty session,
    and its last two lines of output tell what happened: the success line
    and [Session closed.] after a commit of the whole batch, or the line of
    the handler and [Session closed.] after a rollback, the rows of the store
    then being those from before the run.  The line of a handler is never the
    success line. *)
Theorem seed_users_reports_outcome fuel settings count w :
  fault OpCreateAll = None -> fault OpSession = None ->
  fault OpRollback = None -> fault OpClose = None ->
  let run := seed_users fuel settings count w in
  run.1 <> Diverge ->
  run.1 = Ok tt /\ session_new run.2 = []
  /\ ((exists users out,
         db_rows run.2 = db_rows w ++ users
         /\ batch_ok (db_rows w) count users
         /\ store_log run.2 = store_log w
              ++ [OpCreateAll; OpSession; OpQueryEmails; OpQueryUsernames;
                  OpAddAll users; OpCommit; OpClose]
         /\ stdout run.2 = out ++ [success_line count; "Session closed."])
      \/ (exists e body out,
            db_rows run.2 = db_rows w
            /\ body_trace (db_rows w) count body
            /\ store_log run.2 = store_log w
                 ++ [OpCreateAll; OpSession] ++ body ++ [OpRollback; OpClose]
            /\ stdout run.2 = out ++ [error_line e; "Session closed."]
            /\ error_line e <> success_line count)).
Proof.
  intros HCA HS HRB HCL. cbv zeta. intros Hnd.
  destruct (seed_users_opened fuel settings count w HCA HS)
    as [(Hd & _)|[(users & out & Hlog & Hok & Hrows & Hres)
                 |(e0 & body & out & Htr & Hlog & Hrows & Hres)]].
  - contradiction.
  - rewrite HCL in Hres. destruct Hres as (Hr & Hs & Hout).
    split; [exact Hr|]. split; [exact Hs|]. left. by exists users, out.
  - rewrite HRB, HCL in Hres. destruct Hres as (Hr & Hs & Hout).
    split; [exact Hr|]. split; [exact Hs|]. right. exists e0, body, out.
    repeat split; try assumption. apply error_line_not_success.
Qed.

(** X3. In every run of [seed_users] the session is closed at most once and
    [close] is then the last call on the store; it is closed exactly when it
    was opened ([create_all] and [Session()] went through) and the run ends. *)
Theorem session_closed_once fuel settings count w ops :
  let run := seed_users fuel settings count w in
  store_log run.2 = store_log w ++ ops ->
  (count_ops is_close ops <= 1)%nat
  /\ (OpClose ∈ ops -> last ops = Some OpClose)
  /\ (OpClose ∈ ops <->
      fault OpCreateAll = None /\ fault OpSession = None /\ run.1 <> Diverge).
Proof.
  cbv zeta. intros Hops.
  destruct (fault OpCreateAll) as [e1|] eqn:HCA.
  { rewrite seed_users_unguarded, HCA in Hops |- *. cbv zeta in Hops |- *.
    cbn [fst snd] in Hops |- *. wsimpl in Hops.
    rewrite <- ?app_assoc in Hops. apply app_inv_head in Hops as <-. cbn [app].
    split; [vm_compute; lia|].
    split; [intros H; rewrite ?elem_of_cons, elem_of_nil in H; naive_solver|].
    split; [intros H; rewrite ?elem_of_cons, elem_of_nil in H; naive_solver|].
    intros (? & _). discriminate. }
  destruct (fault OpSession) as [e1|] eqn:HS.
  { rewrite seed_users_unguarded, HCA, HS in Hops |- *. cbv zeta in Hops |- *.
    cbn [fst snd] in Hops |- *. wsimpl in Hops.
    rewrite <- ?app_assoc in Hops. apply app_inv_head in Hops as <-. cbn [app].
    split; [vm_compute; lia|].
    split; [intros H; rewrite ?elem_of_cons, elem_of_nil in H; naive_solver|].
    split; [intros H; rewrite ?elem_of_cons, elem_of_nil in H; naive_solver|].
    intros (_ & ? & _). discriminate. }
  destruct (seed_users_opened fuel settings count w HCA HS)
    as [(Hd & Hlog & _)|[(users & out & Hlog & _ & _ & Hres)
                        |(e0 & body & out & Htr & Hlog & _ & Hres)]];
    rewrite Hlog in Hops; apply app_inv_head in Hops as <-.
  - split; [vm_compute; lia|].
    split; [intros H; rewrite ?elem_of_cons, elem_of_nil in H; naive_solver|].
    split; [intros H; rewrite ?elem_of_cons, elem_of_nil in H; naive_solver|].
    intros (_ & _ & ?). contradiction.
  - split; [vm_compute; lia|]. split; [intros _; reflexivity|].
    split; [intros _|intros _; rewrite !elem_of_cons; tauto].
    split; [reflexivity|]. split; [reflexivity|].
    destruct (fault OpClose); destruct Hres as (-> & _); discriminate.
  - split; [rewrite !count_ops_app, (body_trace_no_close _ _ _ Htr);
            vm_compute; lia|].
    split; [intros _; change [OpRollback; OpClose] with ([OpRollback] ++ [OpClose]);
            rewrite !app_assoc; apply last_snoc|].
    split; [intros _|intros _; rewrite !elem_of_app, !elem_of_cons; tauto].
    split; [reflexivity|]. split; [reflexivity|].
    destruct (fault OpRollback), (fault OpClose);
      try destruct Hres as (Hres & _); rewrite Hres; discriminate.
Qed.

(** ** The generator, completely *)

(** X4. What a call of [generate_fake_user] does is fixed by the candidates
    to come: it skips the draws that yield a colliding candidate and stops at
    the first draw that does not.  There it returns the candidate if it is
    fresh, with its e-mail and user name added to the sets; it lets the
    exception of Faker through unchanged if the draw raised; it raises the
    validation error if the e-mail is malformed.  It is still drawing after
    [fuel] draws only if all of them collided.  Nothing but the count of
    Faker calls changes in the world. *)
Theorem generate_fake_user_outcome fuel E U w :
  exists k,
    (k <= fuel)%nat
    /\ (forall j, (j < k)%nat ->
          exists c, candidate (fake_calls w + j) = Some c /\ ~ fresh E U c)
    /\ ((k = fuel /\ generate_fake_user fuel E U w = (Diverge, advance fuel w))
        \/ ((k < fuel)%nat
            /\ ((exists ud,
                   candidate (fake_calls w + k) = Some ud /\ fresh E U ud
                   /\ generate_fake_user fuel E U w =
                      (Ok (ud, ({[UserData.email ud]} ∪ E, {[UserData.username ud]} ∪ U)),
                       advance (S k) w))
                \/ (exists e,
                      fake (fake_calls w + k) = inl e
                      /\ generate_fake_user fuel E U w = (Raise e, advance (S k) w))
                \/ (exists d,
                      fake (fake_calls w + k) = inr d /\ EmailStr (Fake.email d) = None
                      /\ generate_fake_user fuel E U w =
                         (Raise (ValidationError UserData_email_error), advance (S k) w))))).
Proof.
  revert w. induction fuel as [|fuel IH]; intros w.
  - exists 0%nat. split; [lia|]. split; [intros j Hj; lia|]. left. by split.
  - rewrite generate_fake_user_step.
    destruct (fake (fake_calls w)) as [e|d] eqn:Hd.
    { exists 0%nat. split; [lia|]. split; [intros j Hj; lia|]. right. split; [lia|].
      right. left. exists e. rewrite Nat.add_0_r. by split. }
    destruct (EmailStr (Fake.email d)) as [em|] eqn:He.
    2:{ exists 0%nat. split; [lia|]. split; [intros j Hj; lia|]. right. split; [lia|].
        right. right. exists d. rewrite Nat.add_0_r. by repeat split. }
    cbv zeta. destruct (decide _) as [Hf|Hnf].
    { exists 0%nat. split; [lia|]. split; [intros j Hj; lia|]. right. split; [lia|].
      left. eexists. rewrite Nat.add_0_r. unfold candidate. rewrite Hd, He.
      split; [reflexivity|]. split; [exact Hf|reflexivity]. }
    destruct (IH (tick_fake w)) as (k & Hle & Hcol & Hres).
    assert (Hshift : forall j, (fake_calls (tick_fake w) + j = fake_calls w + S j)%nat)
      by (intros j; cbn; lia).
    exists (S k). split; [lia|]. split.
    { intros [|j] Hj.
      - eexists. rewrite Nat.add_0_r. unfold candidate. rewrite Hd, He.
        split; [reflexivity|exact Hnf].
      - rewrite <- Hshift. apply Hcol. lia. }
    change (advance (S fuel) w) with (tick_fake (advance fuel w)).
    change (advance (S (S k)) w) with (tick_fake (advance (S k) w)).
    rewrite <- !advance_tick, <- Hshift.
    destruct Hres as [(-> & Hr)|(Hlt & Hr)]; [left; by split|].
    right. split; [lia|]. exact Hr.
Qed.

(** ** The rows the loop builds *)

Lemma generate_users_provenance fuel settings range :
  forall E U acc w,
  let '(r, w') := generate_users fuel settings range E U acc w in
  match r with
  | Ok (users, _) =>
      hash_calls w' = (hash_calls w + length range)%nat
      /\ exists new,
           users = acc ++ new
           /\ forall i u, new !! i = Some u ->
                exists n ud,
                  (fake_calls w <= n < fake_calls w')%nat
                  /\ candidate n = Some ud
                  /\ u = User.mk (UserData.first_name ud) (UserData.last_name ud)
                           (UserData.email ud) (UserData.username ud)
                           (bcrypt (hash_calls w + i)
                                   (UserData.password ud +:+ salt settings))
  | _ => True
  end.
Proof.
  induction range as [|i0 range IH]; intros E U acc w.
  - simpl. split; [lia|]. exists []. rewrite app_nil_r. split; [reflexivity|].
    intros i u Hi. by rewrite lookup_nil in Hi.
  - rewrite generate_users_cons. cbv zeta.
    pose proof (generate_fake_user_spec fuel E U
                  (add_stdout ("Generating user " +:+ pretty i0 +:+ "...") w)) as Hg.
    destruct (generate_fake_user fuel E U _) as [[[ud [E' U']]|e|] w1]; [|exact I..].
    destruct Hg as (_ & _ & Hh & _ & _ & _ & _ & Hcand & Hlt).
    wsimpl in Hh. wsimpl in Hlt.
    match goal with |- context [generate_users _ _ _ _ _ ?a ?w2] =>
      specialize (IH E' U' a w2);
      pose proof (generate_users_spec fuel settings range E' U' a w2) as Hmono
    end.
    destruct (generate_users _ _ _ _ _ _ _) as [[[users [E'' U'']]|e|] w']; [|exact I..].
    destruct Hmono as (_ & Hc' & _). wsimpl in Hc'.
    destruct IH as (Hhash & new & -> & Hprov). wsimpl in Hhash.
    split; [cbn [length]; lia|].
    eexists (_ :: new). rewrite <- app_assoc. split; [reflexivity|].
    intros [|i] u Hi; cbn in Hi.
    + injection Hi as <-. exists (pred (fake_calls w1)), ud.
      split; [lia|]. split; [exact Hcand|]. rewrite Nat.add_0_r, Hh. reflexivity.
    + destruct (Hprov i u Hi) as (n & ud' & Hn & Hc & ->). wsimpl in Hn.
      exists n, ud'. split; [lia|]. split; [exact Hc|].
      wsimpl. rewrite Hh.
      by replace (S (hash_calls w) + i)%nat with (hash_calls w + S i)%nat by lia.
Qed.

(** X5. When the loop over [range(1, count + 1)] completes, it has appended
    one row per value of the range, in order, touched neither the store nor
    the session, and called the hasher once per row.  Each row copies the
    names, e-mail and user name of a candidate drawn during the loop, and its
    password is the digest of that candidate's plain password followed by the
    configured salt, never the plain password as drawn.  Each set of the
    index has grown by exactly the e-mails, or user names, of the new rows,
    one per row. *)
Theorem generate_users_rows fuel settings range E U acc w users E' U' w' :
  generate_users fuel settings range E U acc w = (Ok (users, (E', U')), w') ->
  exists new,
    users = acc ++ new /\ length new = length range
    /\ same_store w w'
    /\ hash_calls w' = (hash_calls w + length range)%nat
    /\ E' = list_to_set (User.emails new) ∪ E
    /\ U' = list_to_set (User.usernames new) ∪ U
    /\ size E' = (size E + length range)%nat
    /\ size U' = (size U + length range)%nat
    /\ forall i u, new !! i = Some u ->
         exists n ud,
           (fake_calls w <= n < fake_calls w')%nat
           /\ candidate n = Some ud
           /\ u = User.mk (UserData.first_name ud) (UserData.last_name ud)
                    (UserData.email ud) (UserData.username ud)
                    (bcrypt (hash_calls w + i)
                            (UserData.password ud +:+ salt settings)).
Proof.
  intros Hrun.
  pose proof (generate_users_spec fuel settings range E U acc w) as Hs.
  pose proof (generate_users_provenance fuel settings range E U acc w) as Hp.
  rewrite Hrun in Hs, Hp.
  destruct Hs as (Hsame & _ & new & -> & Hlen & Hne & Hde & Hnu & Hdu & -> & ->).
  destruct Hp as (Hhash & new' & Heq & Hprov).
  apply app_inv_head in Heq as <-.
  exists new. split; [reflexivity|]. split; [exact Hlen|]. split; [exact Hsame|].
  split; [exact Hhash|]. split; [reflexivity|]. split; [reflexivity|].
  split; [|split; [|exact Hprov]].
  - rewrite size_union by (apply elem_of_disjoint; intros e He%elem_of_list_to_set;
                           by apply Hde).
    rewrite size_list_to_set by exact Hne.
    unfold User.emails. rewrite length_map. lia.
  - rewrite size_union by (apply elem_of_disjoint; intros u Hu%elem_of_list_to_set;
                           by apply Hdu).
    rewrite size_list_to_set by exact Hnu.
    unfold User.usernames. rewrite length_map. lia.
Qed.

(** ** The unique constraints of the table *)

Lemma flush_distinct new : forall rows,
  NoDup (User.emails new) -> (forall e, e ∈ User.emails new -> e ∉ User.emails rows) ->
  NoDup (User.usernames new) ->
  (forall u, u ∈ User.usernames new -> u ∉ User.usernames rows) ->
  flush rows new = Some (rows ++ new).
Proof.
  induction new as [|x new IH]; intros rows Hne Hde Hnu Hdu; cbn [flush].
  - by rewrite app_nil_r.
  - unfold insert_row. cbn [User.emails User.usernames map] in Hne, Hde, Hnu, Hdu.
    apply NoDup_cons in Hne as [Hxe Hne]. apply NoDup_cons in Hnu as [Hxu Hnu].
    destruct (decide _) as [[Hin|Hin]|_].
    + exfalso. apply (Hde (User.email x)); [apply list_elem_of_here|exact Hin].
    + exfalso. apply (Hdu (User.username x)); [apply list_elem_of_here|exact Hin].
    + rewrite IH; [by rewrite <- app_assoc|exact Hne| |exact Hnu|].
      * intros e He. unfold User.emails. rewrite map_app, elem_of_app. cbn [map].
        intros [Hr|Hr%list_elem_of_singleton].
        -- apply (Hde e); [by apply list_elem_of_further|exact Hr].
        -- subst e. by apply Hxe.
      * intros u Hu. unfold User.usernames. rewrite map_app, elem_of_app. cbn [map].
        intros [Hr|Hr%list_elem_of_singleton].
        -- apply (Hdu u); [by apply list_elem_of_further|exact Hr].
        -- subst u. by apply Hxu.
Qed.

Lemma flush_batch_ok rows count users :
  batch_ok rows count users -> flush rows users = Some (rows ++ users).
Proof. intros (_ & Hne & Hde & Hnu & Hdu). by apply flush_distinct. Qed.

(** X6. The batch the script builds never violates the unique constraints of
    the table: in every run, once [commit] is called and the store raises
    nothing at that call, the flush goes through and the whole batch is in the
    store; no rollback follows. *)
Theorem commit_never_rejects_batch fuel settings count w ops :
  let run := seed_users fuel settings count w in
  store_log run.2 = store_log w ++ ops ->
  OpCommit ∈ ops -> fault OpCommit = None ->
  exists users,
    OpAddAll users ∈ ops /\ flush (db_rows w) users = Some (db_rows w ++ users)
    /\ db_rows run.2 = db_rows w ++ users /\ OpRollback ∉ ops.
Proof.
  cbv zeta. pose proof (seed_users_run fuel settings count w) as Hrun.
  destruct (seed_users fuel settings count w) as [r w']. cbn [fst snd].
  destruct Hrun as (ops0 & Hlog & _ & Hshape). intros Hops Hin HC.
  rewrite Hlog in Hops. apply app_inv_head in Hops as <-.
  destruct Hshape as [(-> & _)|[(-> & _)|[(-> & _)|
                      [(body & Htr & -> & _)|(us & -> & Hok & _ & _ & Hfl & Hrows & _)]]]].
  - rewrite ?elem_of_cons, elem_of_nil in Hin. naive_solver.
  - rewrite ?elem_of_cons, elem_of_nil in Hin. naive_solver.
  - rewrite ?elem_of_cons, elem_of_nil in Hin. naive_solver.
  - exfalso. destruct Htr as [| |users Hok Hf|users Hok _ [Hf|Hf]].
    + rewrite ?elem_of_app, ?elem_of_cons, elem_of_nil in Hin. naive_solver.
    + rewrite ?elem_of_app, ?elem_of_cons, elem_of_nil in Hin. naive_solver.
    + rewrite ?elem_of_app, ?elem_of_cons, elem_of_nil in Hin. naive_solver.
    + contradiction.
    + rewrite (flush_batch_ok _ _ _ Hok) in Hf. discriminate.
  - exists us. split; [rewrite !elem_of_cons; tauto|]. split; [exact Hfl|].
    split; [exact Hrows|]. rewrite ?elem_of_cons, elem_of_nil. naive_solver.
Qed.

(** X7. A run of [seed_users] keeps the table's two columns free of
    duplicates: if no e-mail and no user name occurs twice in the rows of the
    store before the run, none does after it, whatever Faker draws and
    however the store fails. *)
Theorem unique_columns_preserved fuel settings count w :
  NoDup (User.emails (db_rows w)) -> NoDup (User.usernames (db_rows w)) ->
  let run := seed_users fuel settings count w in
  NoDup (User.emails (db_rows run.2)) /\ NoDup (User.usernames (db_rows run.2)).
Proof.
  intros He Hu. cbv zeta. pose proof (seed_users_run fuel settings count w) as Hrun.
  destruct (seed_users fuel settings count w) as [r w']. cbn [fst snd].
  destruct Hrun as (ops & _ & _ & Hshape).
  destruct Hshape as [(_ & -> & _)|[(_ & -> & _)|[(_ & -> & _)|
                      [(body & _ & _ & -> & _)
                      |(us & _ & (_ & Hne & Hde & Hnu & Hdu) & _ & _ & _ & -> & _)]]]];
    try (by split).
  unfold User.emails, User.usernames in *. rewrite !map_app. split.
  - apply NoDup_app. split; [exact He|]. split; [|exact Hne].
    intros e Hin Hin'. by apply (Hde e).
  - apply NoDup_app. split; [exact Hu|]. split; [|exact Hnu].
    intros u Hin Hin'. by apply (Hdu u).
Qed.

(** ** A run in which nothing fails *)

Lemma generate_fake_user_raise fuel E U : forall w e,
  (generate_fake_user fuel E U w).1 = Raise e -> exists n, candidate n = None.
Proof.
  induction fuel as [|fuel IH]; intros w e; [discriminate|].
  rewrite generate_fake_user_step.
  destruct (fake (fake_calls w)) as [e'|d] eqn:Hd.
  { intros _. exists (fake_calls w). unfold candidate. by rewrite Hd. }
  destruct (EmailStr (Fake.email d)) as [em|] eqn:He.
  2:{ intros _. exists (fake_calls w). unfold candidate. by rewrite Hd, He. }
  cbv zeta. destruct (decide _); [discriminate|]. apply IH.
Qed.

Lemma generate_users_raise fuel settings range : forall E U acc w e,
  (generate_users fuel settings range E U acc w).1 = Raise e ->
  exists n, candidate n = None.
Proof.
  induction range as [|i range IH]; intros E U acc w e; [discriminate|].
  rewrite generate_users_cons. cbv zeta.
  destruct (generate_fake_user fuel E U _) as [[[ud [E' U']]|e'|] w1] eqn:Hg.
  - apply IH.
  - intros _. eapply generate_fake_user_raise. by rewrite Hg.
  - discriminate.
Qed.

Lemma seed_users_commits_run fuel settings count w :
  (forall op, fault op = None) -> (forall n, candidate n <> None) ->
  let run := seed_users fuel settings count w in
  run.1 <> Diverge ->
  run.1 = Ok tt
  /\ exists new out,
       db_rows run.2 = db_rows w ++ new
       /\ batch_ok (db_rows w) count new
       /\ hash_calls run.2 = (hash_calls w + Z.to_nat count)%nat
       /\ session_new run.2 = []
       /\ store_log run.2 = store_log w
            ++ [OpCreateAll; OpSession; OpQueryEmails; OpQueryUsernames;
                OpAddAll new; OpCommit; OpClose]
       /\ stdout run.2 = out ++ [success_line count; "Session closed."]
       /\ forall i u, new !! i = Some u ->
            exists n ud,
              (fake_calls w <= n < fake_calls run.2)%nat
              /\ candidate n = Some ud
              /\ u = User.mk (UserData.first_name ud) (UserData.last_name ud)
                       (UserData.email ud) (UserData.username ud)
                       (bcrypt (hash_calls w + i)
                               (UserData.password ud +:+ salt settings)).
Proof.
  intros Hnf Hcand. cbv zeta.
  unfold seed_users, create_all, Session, try_finally, try_except, seed_try_body,
    query_emails, query_usernames, add_all, commit, close.
  unfold bind, print, store_call, gets, modify. rewrite !Hnf. wsimpl.
  match goal with |- context [generate_users ?f ?s ?r ?E ?U ?a ?w0] =>
    pose proof (generate_users_spec f s r E U a w0) as Hs;
    pose proof (generate_users_provenance f s r E U a w0) as Hp;
    pose proof (generate_users_raise f s r E U a w0) as Hr;
    destruct (generate_users f s r E U a w0) as [[[users [E' U']]|e|] w1]
  end.
  - destruct Hs as ((Hrows & Hsess & Hlog) & _ & new & Hus & Hlen & Hne & Hde & Hnu & Hdu & _).
    destruct Hp as (Hhash & new' & Hus' & Hprov).
    cbn [app] in Hus, Hus'. subst users. subst new'.
    wsimpl in Hrows. wsimpl in Hsess. wsimpl in Hlog. wsimpl in Hhash.
    rewrite length_seqZ in Hlen, Hhash.
    cbn [fst snd]. rewrite ?Hnf. wsimpl. rewrite Hsess, Hrows. cbn [app].
    assert (Hde' : forall e, e ∈ User.emails new -> e ∉ User.emails (db_rows w)).
    { intros e He. specialize (Hde e He). by rewrite elem_of_list_to_set in Hde. }
    assert (Hdu' : forall u, u ∈ User.usernames new -> u ∉ User.usernames (db_rows w)).
    { intros u Hu. specialize (Hdu u Hu). by rewrite elem_of_list_to_set in Hdu. }
    rewrite (flush_distinct new (db_rows w) Hne Hde' Hnu Hdu').
    rewrite ?Hnf. cbn [fst snd]. wsimpl. intros _.
    split; [reflexivity|].
    exists new, (stdout w1 ++ ["Adding users to the session...";
                               "Committing the session..."]).
    split; [reflexivity|].
    split; [unfold batch_ok; rewrite Hlen; tauto|]. split; [exact Hhash|].
    split; [reflexivity|]. split; [by rewrite Hlog, <- !app_assoc|].
    split; [by rewrite <- !app_assoc|].
    intros i u Hi. destruct (Hprov i u Hi) as (n & ud & Hn & Hc & ->).
    wsimpl in Hn. by exists n, ud.
  - destruct (Hr e eq_refl) as [n Hn]. by destruct (Hcand n).
  - cbn [fst snd]. intros H. by destruct H.
Qed.

(** X8. When the store raises nothing and every draw yields a candidate, a
    run of [seed_users] that ends has committed: it returns normally, the
    store holds the rows it had followed by [count] new rows (none for a
    count that is not positive) with e-mails and user names nowhere repeated,
    the hasher was called once per row, each new row carries the names,
    e-mail and user name of a candidate drawn in this run and the digest of
    that candidate's password followed by the configured salt, the session is
    empty, and the output ends with the success line and [Session closed.]. *)
Theorem seed_users_commits fuel settings count w :
  (forall op, fault op = None) -> (forall n, candidate n <> None) ->
  let run := seed_users fuel settings count w in
  run.1 <> Diverge ->
  run.1 = Ok tt
  /\ exists new out,
       db_rows run.2 = db_rows w ++ new
       /\ batch_ok (db_rows w) count new
       /\ hash_calls run.2 = (hash_calls w + Z.to_nat count)%nat
       /\ session_new run.2 = []
       /\ store_log run.2 = store_log w
            ++ [OpCreateAll; OpSession; OpQueryEmails; OpQueryUsernames;
                OpAddAll new; OpCommit; OpClose]
       /\ stdout run.2 = out ++ [success_line count; "Session closed."]
       /\ forall i u, new !! i = Some u ->
            exists n ud,
              (fake_calls w <= n < fake_calls run.2)%nat
              /\ candidate n = Some ud
              /\ u = User.mk (UserData.first_name ud) (UserData.last_name ud)
                       (UserData.email ud) (UserData.username ud)
                       (bcrypt (hash_calls w + i)
                               (UserData.password ud +:+ salt settings)).
Proof. apply seed_users_commits_run. Qed.

(** ** A run that does not end *)

Lemma generate_fake_user_diverge fuel E U : forall w,
  (generate_fake_user fuel E U w).1 = Diverge ->
  fake_calls (generate_fake_user fuel E U w).2 = (fake_calls w + fuel)%nat.
Proof.
  induction fuel as [|fuel IH]; intros w; [cbn; lia|].
  rewrite generate_fake_user_step.
  destruct (fake (fake_calls w)) as [e'|d]; [discriminate|].
  destruct (EmailStr (Fake.email d)) as [em|]; [|discriminate].
  cbv zeta. destruct (decide _); [discriminate|].
  intros H. rewrite (IH _ H). cbn. lia.
Qed.

Lemma generate_users_diverge fuel settings range : forall E U acc w,
  (generate_users fuel settings range E U acc w).1 = Diverge ->
  (fake_calls w + fuel <= fake_calls (generate_users fuel settings range E U acc w).2)%nat.
Proof.
  induction range as [|i range IH]; intros E U acc w; [discriminate|].
  rewrite generate_users_cons. cbv zeta.
  pose proof (generate_fake_user_spec fuel E U
                (add_stdout ("Generating user " +:+ pretty i +:+ "...") w)) as Hs.
  pose proof (generate_fake_user_diverge fuel E U
                (add_stdout ("Generating user " +:+ pretty i +:+ "...") w)) as Hd.
  destruct (generate_fake_user fuel E U _) as [[[ud [E' U']]|e'|] w1].
  - destruct Hs as (_ & _ & _ & Hc & _). wsimpl in Hc. intros H.
    specialize (IH _ _ _ _ H). wsimpl in IH. lia.
  - discriminate.
  - intros _. cbn [fst snd] in Hd |- *. rewrite (Hd eq_refl). wsimpl. lia.
Qed.

Lemma seed_try_body_diverge fuel settings count w :
  (seed_try_body fuel settings count w).1 = Diverge ->
  0 < count
  /\ session_new (seed_try_body fuel settings count w).2 = session_new w
  /\ (fake_calls w + fuel <= fake_calls (seed_try_body fuel settings count w).2)%nat.
Proof.
  unfold seed_try_body, query_emails, query_usernames, add_all, commit.
  unfold bind, print, store_call, gets, modify. wsimpl.
  destruct (fault OpQueryEmails); [discriminate|].
  destruct (fault OpQueryUsernames); [discriminate|].
  match goal with |- context [generate_users ?f ?s ?r ?E ?U ?a ?w0] =>
    pose proof (generate_users_diverge f s r E U a w0) as Hd;
    pose proof (generate_users_spec f s r E U a w0) as Hs;
    destruct (generate_users f s r E U a w0) as [[[users [E' U']]|e|] w1] eqn:Hg
  end.
  - destruct (fault (OpAddAll _)); [discriminate|].
    destruct (fault OpCommit); [discriminate|].
    wsimpl. destruct (flush _ _); discriminate.
  - discriminate.
  - intros _. cbn [fst snd] in Hd |- *. specialize (Hd eq_refl). wsimpl in Hd.
    destruct Hs as ((_ & Hsess & _) & _). wsimpl in Hsess.
    split; [|by split].
    destruct (decide (0 < count)) as [|Hn]; [assumption|].
    rewrite seqZ_nil in Hg by lia. discriminate.
Qed.

(** X9. A run of [seed_users] fails to end only inside the generator: then
    [create_all], [Session()] and the two queries went through and are the
    only calls made on the store, nothing was added, committed, rolled back
    or closed, the rows of the store are untouched, and one call of the
    generator has used up every draw it was granted. *)
Theorem seed_users_hangs_in_generator fuel settings count w :
  let run := seed_users fuel settings count w in
  run.1 = Diverge ->
  store_log run.2 = store_log w
    ++ [OpCreateAll; OpSession; OpQueryEmails; OpQueryUsernames]
  /\ db_rows run.2 = db_rows w /\ session_new run.2 = []
  /\ fault OpCreateAll = None /\ fault OpSession = None
  /\ fault OpQueryEmails = None /\ fault OpQueryUsernames = None
  /\ 0 < count
  /\ (fake_calls w + fuel <= fake_calls run.2)%nat.
Proof.
  cbv zeta. rewrite seed_users_unguarded. cbv zeta.
  destruct (fault OpCreateAll); [discriminate|].
  destruct (fault OpSession); [discriminate|].
  match goal with |- context [try_finally _ _ ?w2] =>
    pose proof (guarded_result (seed_try_body fuel settings count) w2) as Hg;
    pose proof (seed_try_body_spec fuel settings count w2 eq_refl) as Hb;
    pose proof (seed_try_body_diverge fuel settings count w2) as Hd;
    set (run := try_finally _ _ w2) in *
  end.
  cbv zeta in Hg.
  destruct (seed_try_body fuel settings count _) as [[[]|e0|] wb];
    cbn [fst snd] in Hg, Hd; destruct Hb as (_ & Hb); wsimpl in Hb.
  - destruct Hg as (_ & _ & _ & _ & Hres).
    destruct (fault OpClose); destruct Hres as (-> & _); discriminate.
  - destruct Hg as (_ & _ & _ & _ & Hres).
    destruct (fault OpRollback), (fault OpClose);
      try destruct Hres as (Hres & _); rewrite Hres; discriminate.
  - intros _. rewrite Hg. cbn [fst snd].
    destruct Hb as (Hrows & Hlog & HQE & HQU).
    destruct (Hd eq_refl) as (Hcount & Hsess & Hdraws).
    wsimpl in Hdraws. wsimpl in Hsess.
    rewrite Hlog, Hrows, <- !app_assoc. by repeat split.
Qed.

(** ** A commit the store rejects *)

Lemma seed_users_commit_rejected fuel settings count w e :
  fault OpCommit = Some e -> (forall op, op <> OpCommit -> fault op = None) ->
  (forall n, candidate n <> None) ->
  let run := seed_users fuel settings count w in
  run.1 <> Diverge ->
  run.1 = Ok tt
  /\ db_rows run.2 = db_rows w
  /\ session_new run.2 = []
  /\ exists new out,
       batch_ok (db_rows w) count new
       /\ store_log run.2 = store_log w
            ++ [OpCreateAll; OpSession; OpQueryEmails; OpQueryUsernames;
                OpAddAll new; OpCommit; OpRollback; OpClose]
       /\ stdout run.2 = out ++ [error_line e; "Session closed."].
Proof.
  intros HC Hnf Hcand. cbv zeta.
  unfold seed_users, create_all, Session, try_finally, try_except, seed_try_body,
    query_emails, query_usernames, add_all, commit, close.
  unfold bind, print, store_call, gets, modify.
  rewrite (Hnf OpCreateAll), (Hnf OpSession), (Hnf OpQueryEmails),
    (Hnf OpQueryUsernames) by discriminate. wsimpl.
  match goal with |- context [generate_users ?f ?s ?r ?E ?U ?a ?w0] =>
    pose proof (generate_users_spec f s r E U a w0) as Hs;
    pose proof (generate_users_raise f s r E U a w0) as Hr;
    destruct (generate_users f s r E U a w0) as [[[users [E' U']]|e'|] w1]
  end.
  - destruct Hs as ((Hrows & Hsess & Hlog) & _ & new & Hus & Hlen & Hne & Hde & Hnu & Hdu & _).
    cbn [app] in Hus. subst users.
    wsimpl in Hrows. wsimpl in Hsess. wsimpl in Hlog. rewrite length_seqZ in Hlen.
    cbn [fst snd]. rewrite (Hnf (OpAddAll new)) by discriminate. rewrite HC. wsimpl.
    assert (Hfinish : forall w0,
      seed_handler e w0
      = (Ok tt, add_stdout (error_line e)
                  (set_session_new [] (add_store_log OpRollback w0)))).
    { intros w0.
      destruct e; unfold seed_handler, rollback, bind, store_call, modify, print;
        rewrite (Hnf OpRollback) by discriminate; reflexivity. }
    rewrite Hfinish. rewrite (Hnf OpClose) by discriminate. cbn [fst snd]. wsimpl.
    intros _. split; [reflexivity|]. split; [exact Hrows|]. split; [reflexivity|].
    exists new, (stdout w1 ++ ["Adding users to the session...";
                               "Committing the session..."]).
    split.
    { unfold batch_ok. rewrite Hlen. split; [reflexivity|]. split; [exact Hne|].
      split; [intros x Hx; specialize (Hde x Hx); by rewrite elem_of_list_to_set in Hde|].
      split; [exact Hnu|].
      intros x Hx; specialize (Hdu x Hx); by rewrite elem_of_list_to_set in Hdu. }
    split; [by rewrite Hlog, <- !app_assoc|]. by rewrite <- !app_assoc.
  - destruct (Hr e' eq_refl) as [n Hn]. by destruct (Hcand n).
  - cbn [fst snd]. intros H. by destruct H.
Qed.

(** ** The copy in tests/unit/test_database.py *)

Lemma test_copy_generator_step fuel E U w0 :
  TestDb.generate_fake_user (forget_fake fake) EmailStr (S fuel) E U w0 =
  match fake (TestDb.fake_calls w0) with
  | inl e => (Raise e, TestDb.tick_fake w0)
  | inr d =>
      match EmailStr (Fake.email d) with
      | None => (Raise (ValidationError UserData_email_error), TestDb.tick_fake w0)
      | Some e =>
          let ud := TestDb.mkUserData (Fake.first_name d) (Fake.last_name d) e
                                      (Fake.user_name d) in
          if decide ((TestDb.ud_email ud ∉ E) /\ (TestDb.ud_username ud ∉ U))
          then (Ok (ud, ({[TestDb.ud_email ud]} ∪ E, {[TestDb.ud_username ud]} ∪ U)),
                TestDb.tick_fake w0)
          else TestDb.generate_fake_user (forget_fake fake) EmailStr fuel E U
                 (TestDb.tick_fake w0)
      end
  end.
Proof.
  cbn [TestDb.generate_fake_user].
  unfold TestDb.bind, TestDb.fake_draw, TestDb.UserData_new, forget_fake.
  destruct (fake (TestDb.fake_calls w0)) as [e|d]; [reflexivity|].
  cbn [forget_draw TestDb.fake_email TestDb.fake_first_name TestDb.fake_last_name
       TestDb.fake_user_name].
  destruct (EmailStr (Fake.email d)) as [e|]; [|reflexivity].
  cbn. destruct (decide _); reflexivity.
Qed.

(** What the generator of the copy leaves alone. *)
Definition test_copy_frame (w0 w0' : TestDb.World) : Prop :=
  TestDb.db_rows w0' = TestDb.db_rows w0 /\ TestDb.txn w0' = TestDb.txn w0
  /\ TestDb.stdout w0' = TestDb.stdout w0 /\ TestDb.store_log w0' = TestDb.store_log w0.

Lemma test_copy_generator fuel E U : forall w w0,
  TestDb.fake_calls w0 = fake_calls w ->
  let run := generate_fake_user fuel E U w in
  let run0 := TestDb.generate_fake_user (forget_fake fake) EmailStr fuel E U w0 in
  run0.1 = forget_result (fun r => (forget_data r.1, r.2)) run.1
  /\ TestDb.fake_calls run0.2 = fake_calls run.2
  /\ test_copy_frame w0 run0.2.
Proof.
  induction fuel as [|fuel IH]; intros w w0 Hc; cbv zeta.
  - cbn. by repeat split.
  - rewrite generate_fake_user_step, test_copy_generator_step, Hc.
    destruct (fake (fake_calls w)) as [e|d]; [cbn; rewrite Hc; by repeat split|].
    destruct (EmailStr (Fake.email d)) as [e|]; [|cbn; rewrite Hc; by repeat split].
    cbv zeta. cbn [TestDb.ud_email TestDb.ud_username UserData.email UserData.username].
    destruct (decide _); [cbn; rewrite Hc; by repeat split|].
    destruct (IH (tick_fake w) (TestDb.tick_fake w0)) as (Hr & Hc' & Hf);
      [cbn; by rewrite Hc|].
    split; [exact Hr|]. split; [exact Hc'|exact Hf].
Qed.

Lemma test_copy_loop_cons fuel i range E U acc w0 :
  TestDb.generate_users (forget_fake fake) EmailStr fuel (i :: range) E U acc w0 =
  match TestDb.generate_fake_user (forget_fake fake) EmailStr fuel E U w0 with
  | (Ok (ud, (E', U')), w1) =>
      let user := TestDb.mkUser (TestDb.ud_first_name ud) (TestDb.ud_last_name ud)
                                (TestDb.ud_email ud) (TestDb.ud_username ud) in
      TestDb.generate_users (forget_fake fake) EmailStr fuel range E' U' (acc ++ [user]) w1
  | (Raise e, w1) => (Raise e, w1)
  | (Diverge, w1) => (Diverge, w1)
  end.
Proof.
  cbn [TestDb.generate_users]. unfold TestDb.bind at 1.
  destruct (TestDb.generate_fake_user _ _ fuel E U w0) as [[[ud [E' U']]|e|] w1];
    reflexivity.
Qed.

Lemma test_copy_loop fuel settings range : forall range0 E U acc w w0,
  length range0 = length range ->
  TestDb.fake_calls w0 = fake_calls w ->
  let run := generate_users fuel settings range E U acc w in
  let run0 := TestDb.generate_users (forget_fake fake) EmailStr fuel range0 E U
                (map forget_user acc) w0 in
  run0.1 = forget_result (fun r => (map forget_user r.1, r.2)) run.1
  /\ TestDb.fake_calls run0.2 = fake_calls run.2
  /\ test_copy_frame w0 run0.2.
Proof.
  induction range as [|i range IH]; intros [|i0 range0] E U acc w w0 Hlen Hc;
    try discriminate; cbv zeta.
  - cbn. by repeat split.
  - rewrite generate_users_cons, test_copy_loop_cons. cbv zeta.
    pose proof (test_copy_generator fuel E U
                  (add_stdout ("Generating user " +:+ pretty i +:+ "...") w) w0 Hc)
      as Hg. cbv zeta in Hg.
    destruct (generate_fake_user fuel E U _) as [[[ud [E' U']]|e|] w1];
      destruct (TestDb.generate_fake_user _ _ fuel E U w0) as [r0 w1'];
      cbn [fst snd forget_result] in Hg; destruct Hg as (-> & Hc1 & Hf1);
      [|cbn; split; [reflexivity|split; assumption]..].
    cbn [fst snd forget_data UserData.first_name UserData.last_name UserData.email
         UserData.username TestDb.ud_first_name TestDb.ud_last_name TestDb.ud_email
         TestDb.ud_username].
    match goal with |- context [generate_users _ _ _ _ _ ?a ?w2] =>
      specialize (IH range0 E' U' a w2 w1')
    end.
    rewrite map_app in IH. cbn [map forget_user User.first_name User.last_name
                                User.email User.username] in IH.
    destruct IH as (Hr & Hc2 & Hf2); [by injection Hlen|exact Hc1|].
    split; [exact Hr|]. split; [exact Hc2|].
    destruct Hf1 as (Ha & Hb & Hd & He), Hf2 as (Ha' & Hb' & Hd' & He').
    unfold test_copy_frame.
    rewrite <- Ha, <- Hb, <- Hd, <- He.
    split; [exact Ha'|]. split; [exact Hb'|]. split; [exact Hd'|exact He'].
Qed.

Lemma forget_emails rows : TestDb.emails (map forget_user rows) = User.emails rows.
Proof.
  unfold TestDb.emails, User.emails. rewrite map_map. reflexivity.
Qed.

Lemma forget_usernames rows :
  TestDb.usernames (map forget_user rows) = User.usernames rows.
Proof.
  unfold TestDb.usernames, User.usernames. rewrite map_map. reflexivity.
Qed.

(** The unique constraints do not look at the password column. *)
Lemma test_copy_flush pending : forall rows,
  TestDb.flush (map forget_user rows) (map forget_user pending)
  = option_map (map forget_user) (flush rows pending).
Proof.
  induction pending as [|u pending IH]; intros rows; [reflexivity|].
  cbn [map TestDb.flush flush]. unfold TestDb.insert_row, insert_row.
  rewrite forget_emails, forget_usernames.
  cbn [forget_user TestDb.email TestDb.username].
  destruct (decide _); [reflexivity|].
  rewrite <- IH, map_app. reflexivity.
Qed.

Lemma seed_try_body_unfold fuel settings count w :
  seed_try_body fuel settings count w =
  let w1 := add_store_log OpQueryEmails
              (add_stdout "Fetching existing emails and usernames to prevent duplicates..."
                          w) in
  match fault OpQueryEmails with
  | Some e => (Raise e, w1)
  | None =>
      let w2 := add_store_log OpQueryUsernames w1 in
      match fault OpQueryUsernames with
      | Some e => (Raise e, w2)
      | None =>
          let E : gset string := list_to_set (User.emails (db_rows w)) in
          let U : gset string := list_to_set (User.usernames (db_rows w)) in
          let w3 := add_stdout ("Found " +:+ pretty (size E) +:+ " existing emails and "
                                +:+ pretty (size U) +:+ " existing usernames.") w2 in
          match generate_users fuel settings (seqZ 1 count) E U [] w3 with
          | (Ok r, w4) =>
              let w5 := add_store_log (OpAddAll r.1)
                          (add_stdout "Adding users to the session..." w4) in
              match fault (OpAddAll r.1) with
              | Some e => (Raise e, w5)
              | None =>
                  let w6 := add_store_log OpCommit
                              (add_stdout "Committing the session..."
                                 (set_session_new (session_new w5 ++ r.1) w5)) in
                  match fault OpCommit with
                  | Some e => (Raise e, w6)
                  | None =>
                      match flush (db_rows w6) (session_new w6) with
                      | Some rows' =>
                          (Ok tt, add_stdout (success_line count)
                                    (set_session_new [] (set_db_rows rows' w6)))
                      | None =>
                          (Raise (IntegrityError
                                    "duplicate key value violates unique constraint"), w6)
                      end
                  end
              end
          | (Raise e, w4) => (Raise e, w4)
          | (Diverge, w4) => (Diverge, w4)
          end
      end
  end.
Proof.
  unfold seed_try_body, query_emails, query_usernames, add_all, commit, bind, print,
    store_call, gets, modify.
  destruct (fault OpQueryEmails); [reflexivity|].
  destruct (fault OpQueryUsernames); [reflexivity|].
  cbv zeta. wsimpl.
  destruct (generate_users _ _ _ _ _ _ _) as [[r|e|] w4]; [|reflexivity..].
  destruct (fault (OpAddAll r.1)); [reflexivity|].
  destruct (fault OpCommit); [reflexivity|].
  destruct (flush _ _); reflexivity.
Qed.

Lemma test_copy_body_unfold fault0 fuel count w0 :
  TestDb.seed_try_body (forget_fake fake) EmailStr fault0 fuel count w0 =
  let w1 := TestDb.add_store_log TestDb.OpQueryEmails w0 in
  match fault0 TestDb.OpQueryEmails with
  | Some e => (Raise e, w1)
  | None =>
      let w2 := TestDb.add_store_log TestDb.OpQueryUsernames w1 in
      match fault0 TestDb.OpQueryUsernames with
      | Some e => (Raise e, w2)
      | None =>
          let rows := TestDb.db_rows w0 ++ TestDb.txn w0 in
          let E : gset string := list_to_set (TestDb.emails rows) in
          let U : gset string := list_to_set (TestDb.usernames rows) in
          match TestDb.generate_users (forget_fake fake) EmailStr fuel (seqZ 0 count)
                  E U [] w2 with
          | (Ok r, w4) =>
              let w5 := TestDb.add_store_log (TestDb.OpBulkSave r.1) w4 in
              match fault0 (TestDb.OpBulkSave r.1) with
              | Some e => (Raise e, w5)
              | None =>
                  match TestDb.flush (TestDb.db_rows w5 ++ TestDb.txn w5) r.1 with
                  | Some _ =>
                      let w6 := TestDb.add_store_log TestDb.OpCommit
                                  (TestDb.set_txn (TestDb.txn w5 ++ r.1) w5) in
                      match fault0 TestDb.OpCommit with
                      | Some e => (Raise e, w6)
                      | None =>
                          (Ok tt,
                           TestDb.add_stdout
                             ("Successfully added " +:+ pretty count
                              +:+ " users to the database.")
                             (TestDb.set_txn []
                                (TestDb.set_db_rows (TestDb.db_rows w6 ++ TestDb.txn w6)
                                   w6)))
                      end
                  | None =>
                      (Raise (IntegrityError
                                "duplicate key value violates unique constraint"), w5)
                  end
              end
          | (Raise e, w4) => (Raise e, w4)
          | (Diverge, w4) => (Diverge, w4)
          end
      end
  end.
Proof.
  unfold TestDb.seed_try_body, TestDb.query_emails, TestDb.query_usernames,
    TestDb.bulk_save_objects, TestDb.commit, TestDb.bind, TestDb.print,
    TestDb.store_call, TestDb.gets, TestDb.modify.
  destruct (fault0 TestDb.OpQueryEmails); [reflexivity|].
  destruct (fault0 TestDb.OpQueryUsernames); [reflexivity|].
  cbv zeta. cbn [TestDb.db_rows TestDb.txn TestDb.add_store_log].
  destruct (TestDb.generate_users _ _ _ _ _ _ _ _) as [[r|e|] w4]; [|reflexivity..].
  destruct (fault0 (TestDb.OpBulkSave r.1)); [reflexivity|].
  destruct (TestDb.flush _ _); [|reflexivity].
  destruct (fault0 TestDb.OpCommit); reflexivity.
Qed.

Lemma same_run_log op w w0 :
  same_run w w0 -> same_run (add_store_log op w) (TestDb.add_store_log (forget_op op) w0).
Proof.
  intros (Hrows & Hlog & Hcalls). unfold same_run. cbn.
  rewrite map_app, Hlog. by repeat split.
Qed.

Lemma same_run_frame w w' w0 w0' :
  same_run w w0 -> same_store w w' -> test_copy_frame w0 w0' ->
  TestDb.fake_calls w0' = fake_calls w' -> same_run w' w0'.
Proof.
  intros (Hrows & Hlog & _) (Hr & _ & Hl) (Hr0 & _ & _ & Hl0) Hc.
  unfold same_run. rewrite Hr0, Hl0, Hr, Hl. by repeat split.
Qed.

Lemma test_copy_body fault0 fuel settings count w w0 :
  (forall op, fault0 (forget_op op) = fault op) ->
  same_run w w0 -> session_new w = [] -> TestDb.txn w0 = [] ->
  let rb := seed_try_body fuel settings count w in
  let rb0 := TestDb.seed_try_body (forget_fake fake) EmailStr fault0 fuel count w0 in
  rb0.1 = rb.1 /\ same_run rb.2 rb0.2
  /\ TestDb.stdout rb0.2
     = TestDb.stdout w0 ++ match rb.1 with Ok _ => [success_line count] | _ => [] end.
Proof.
  intros Hfault Hsame Hsess Htxn. cbv zeta.
  rewrite seed_try_body_unfold, test_copy_body_unfold. cbv zeta.
  change TestDb.OpQueryEmails with (forget_op OpQueryEmails).
  change TestDb.OpQueryUsernames with (forget_op OpQueryUsernames).
  change TestDb.OpCommit with (forget_op OpCommit).
  rewrite !Hfault, Htxn, app_nil_r.
  replace (TestDb.db_rows w0) with (map forget_user (db_rows w)) by (symmetry; apply Hsame).
  rewrite forget_emails, forget_usernames.
  destruct (fault OpQueryEmails) as [e|].
  { cbn [fst snd]. split; [reflexivity|]. split; [|cbn; by rewrite app_nil_r].
    by apply same_run_log. }
  destruct (fault OpQueryUsernames) as [e|].
  { cbn [fst snd]. split; [reflexivity|]. split; [|cbn; by rewrite app_nil_r].
    by do 2 apply same_run_log. }
  match goal with |- context [generate_users _ _ _ ?E ?U [] ?w3] =>
    pose proof (generate_users_spec fuel settings (seqZ 1 count) E U [] w3) as Hspec;
    match goal with |- context [TestDb.generate_users _ _ _ _ _ _ _ ?w2] =>
      pose proof (test_copy_loop fuel settings (seqZ 1 count) (seqZ 0 count) E U [] w3 w2)
        as Hsim;
      assert (same_run w3 w2) as Hsame3 by (by do 2 apply same_run_log)
    end
  end.
  cbv zeta in Hsim. cbn [map] in Hsim.
  destruct Hsim as (Hr & Hc & Hfr); [by rewrite !length_seqZ|apply Hsame|].
  destruct (generate_users _ _ _ _ _ _ _) as [r w4].
  destruct (TestDb.generate_users _ _ _ _ _ _ _ _) as [r0 w4'].
  cbn [fst snd] in Hr, Hc, Hfr. destruct Hspec as (Hst & _ & Hspec). subst r0.
  pose proof (same_run_frame _ _ _ _ Hsame3 Hst Hfr Hc) as Hsame4.
  assert (TestDb.stdout w4' = TestDb.stdout w0) as Hout by (rewrite (proj1 (proj2 (proj2 Hfr))); reflexivity).
  assert (TestDb.txn w4' = []) as Htxn4 by (rewrite (proj1 (proj2 Hfr)); exact Htxn).
  destruct r as [[users [E' U']]|e|]; cbn [forget_result fst snd];
    [|split; [reflexivity|split; [exact Hsame4|by rewrite app_nil_r]]..].
  change (TestDb.OpBulkSave (map forget_user users)) with (forget_op (OpAddAll users)).
  rewrite Hfault.
  destruct (fault (OpAddAll users)) as [e|].
  { cbn [fst snd]. split; [reflexivity|]. split; [|cbn; by rewrite Hout, app_nil_r].
    by apply same_run_log. }
  destruct Hspec as (new & Hnew & _ & Hne & Hde & Hnu & Hdu & _). cbn [app] in Hnew.
  subst new.
  destruct Hst as (Hrows4 & Hsess4 & _). wsimpl in Hrows4. wsimpl in Hsess4.
  assert (flush (db_rows w4) users = Some (db_rows w4 ++ users)) as Hflush.
  { apply flush_distinct; [exact Hne| |exact Hnu|].
    - intros e He Hin. apply (Hde e He). rewrite elem_of_list_to_set.
      by rewrite <- Hrows4.
    - intros u Hu Hin. apply (Hdu u Hu). rewrite elem_of_list_to_set.
      by rewrite <- Hrows4. }
  cbn [TestDb.db_rows TestDb.txn TestDb.stdout TestDb.store_log TestDb.fake_calls
       TestDb.add_stdout TestDb.add_store_log TestDb.set_db_rows TestDb.set_txn].
  wsimpl. rewrite Htxn4, Hsess4, Hsess, !app_nil_r. cbn [app].
  replace (TestDb.db_rows w4') with (map forget_user (db_rows w4))
    by (symmetry; apply Hsame4).
  rewrite test_copy_flush, Hflush. cbn [option_map].
  destruct (fault OpCommit) as [e|].
  { cbn [fst snd]. split; [reflexivity|]. split; [|cbn; by rewrite Hout, app_nil_r].
    destruct Hsame4 as (Hr4 & Hl4 & Hc4). unfold same_run. cbn.
    rewrite !map_app, Hl4, Hr4. cbn. by repeat split. }
  cbn [fst snd]. split; [reflexivity|]. split; [|cbn; by rewrite Hout].
  destruct Hsame4 as (Hr4 & Hl4 & Hc4). unfold same_run. cbn.
  rewrite !map_app, Hl4. cbn. by repeat split.
Qed.

Lemma seed_try_body_output fuel settings count w :
  let rb := seed_try_body fuel settings count w in
  exists out, stdout rb.2 = stdout w ++ out
              /\ (rb.1 = Ok tt -> success_line count ∈ out).
Proof.
  cbv zeta. rewrite seed_try_body_unfold. cbv zeta.
  set (l1 := "Fetching existing emails and usernames to prevent duplicates...").
  destruct (fault OpQueryEmails) as [e|]; [by exists [l1]|].
  destruct (fault OpQueryUsernames) as [e|]; [by exists [l1]|].
  match goal with |- context [generate_users _ _ _ ?E ?U [] ?w3] =>
    destruct (appends_generate_users fuel settings (seqZ 1 count) E U [] w3) as [outg Hg]
  end.
  wsimpl in Hg. rewrite <- !app_assoc in Hg. cbn [app] in Hg.
  match type of Hg with _ = _ ++ l1 :: ?l :: _ => set (l2 := l) in * end.
  destruct (generate_users _ _ _ _ _ _ _) as [[r|e|] w4]; cbn [fst snd] in Hg;
    [|by exists (l1 :: l2 :: outg)..].
  set (l3 := "Adding users to the session...").
  destruct (fault (OpAddAll r.1)) as [e|].
  { exists (l1 :: l2 :: outg ++ [l3]). split; [|discriminate].
    cbn [fst snd]. wsimpl. rewrite Hg, <- app_assoc. reflexivity. }
  set (l4 := "Committing the session...").
  destruct (fault OpCommit) as [e|].
  { exists (l1 :: l2 :: outg ++ [l3; l4]). split; [|discriminate].
    cbn [fst snd]. wsimpl. rewrite Hg, <- !app_assoc. reflexivity. }
  destruct (flush _ _).
  - exists (l1 :: l2 :: outg ++ [l3; l4; success_line count]). split.
    + cbn [fst snd]. wsimpl. rewrite Hg, <- !app_assoc. reflexivity.
    + intros _. do 2 apply list_elem_of_further. rewrite elem_of_app. right.
      do 2 apply list_elem_of_further. apply list_elem_of_here.
  - exists (l1 :: l2 :: outg ++ [l3; l4]). split; [|discriminate].
    cbn [fst snd]. wsimpl. rewrite Hg, <- !app_assoc. reflexivity.
Qed.

Lemma test_copy_unguarded fault0 fuel count w0 :
  TestDb.seed_users (forget_fake fake) EmailStr fault0 fuel count w0 =
  let w1 := TestDb.add_store_log TestDb.OpCreateAll w0 in
  match fault0 TestDb.OpCreateAll with
  | Some e => (Raise e, w1)
  | None =>
      match fault0 TestDb.OpSession with
      | Some e => (Raise e, TestDb.add_store_log TestDb.OpSession w1)
      | None =>
          TestDb.try_finally
            (TestDb.try_except
               (TestDb.seed_try_body (forget_fake fake) EmailStr fault0 fuel count)
               (TestDb.seed_handler fault0))
            (TestDb.close fault0)
            (TestDb.set_txn [] (TestDb.add_store_log TestDb.OpSession w1))
      end
  end.
Proof.
  unfold TestDb.seed_users, TestDb.create_all, TestDb.Session.
  unfold TestDb.bind at 1 2 3. unfold TestDb.store_call at 1 2.
  unfold TestDb.modify at 1.
  destruct (fault0 TestDb.OpCreateAll); [reflexivity|].
  destruct (fault0 TestDb.OpSession); reflexivity.
Qed.

(** What the handlers and the [finally] clause of the copy make of the
    outcome of any body. *)
Lemma test_copy_guarded fault0 (body : TestDb.M unit) w0 :
  let run := TestDb.try_finally (TestDb.try_except body (TestDb.seed_handler fault0))
               (TestDb.close fault0) w0 in
  let wb := (body w0).2 in
  match (body w0).1 with
  | Diverge => run = (Diverge, wb)
  | Ok _ =>
      TestDb.store_log run.2 = TestDb.store_log wb ++ [TestDb.OpClose]
      /\ TestDb.db_rows run.2 = TestDb.db_rows wb
      /\ TestDb.fake_calls run.2 = TestDb.fake_calls wb
      /\ TestDb.stdout run.2 = TestDb.stdout wb
      /\ run.1 = match fault0 TestDb.OpClose with Some e => Raise e | None => Ok tt end
  | Raise e0 =>
      TestDb.store_log run.2 = TestDb.store_log wb ++ [TestDb.OpRollback; TestDb.OpClose]
      /\ TestDb.db_rows run.2 = TestDb.db_rows wb
      /\ TestDb.fake_calls run.2 = TestDb.fake_calls wb
      /\ TestDb.stdout run.2
         = TestDb.stdout wb ++ match fault0 TestDb.OpRollback with
                               | None => [error_line e0]
                               | Some _ => []
                               end
      /\ run.1 = match fault0 TestDb.OpRollback, fault0 TestDb.OpClose with
                 | _, Some e2 => Raise e2
                 | Some e1, None => Raise e1
                 | None, None => Ok tt
                 end
  end.
Proof.
  cbv zeta. unfold TestDb.try_finally, TestDb.try_except.
  destruct (body w0) as [[[]|e0|] wb]; cbn [fst snd]; [| |reflexivity].
  - unfold TestDb.close, TestDb.bind, TestDb.store_call, TestDb.modify.
    destruct (fault0 TestDb.OpClose); cbn; by repeat split.
  - destruct e0 as [m|m|m];
      unfold TestDb.seed_handler, TestDb.rollback, TestDb.close, TestDb.bind,
        TestDb.store_call, TestDb.modify, TestDb.print;
      destruct (fault0 TestDb.OpRollback), (fault0 TestDb.OpClose);
      cbn -[String.append]; rewrite <- ?app_assoc, ?app_nil_r; by repeat split.
Qed.

Lemma test_copy_simulation fault0 fuel settings count w w0 :
  (forall op, fault0 (forget_op op) = fault op) ->
  same_run w w0 ->
  let run := seed_users fuel settings count w in
  let run0 := TestDb.seed_users (forget_fake fake) EmailStr fault0 fuel count w0 in
  run0.1 = run.1 /\ same_run run.2 run0.2
  /\ exists out out0,
       stdout run.2 = stdout w ++ out
       /\ TestDb.stdout run0.2 = TestDb.stdout w0 ++ out0
       /\ (length out0 <= 1)%nat /\ (forall l, l ∈ out0 -> l ∈ out).
Proof.
  intros Hfault Hsame. cbv zeta.
  rewrite seed_users_unguarded, test_copy_unguarded. cbv zeta.
  change TestDb.OpCreateAll with (forget_op OpCreateAll).
  change TestDb.OpSession with (forget_op OpSession).
  rewrite !Hfault.
  set (l0 := "Creating tables if they don't exist...").
  destruct (fault OpCreateAll) as [e|].
  { cbn [fst snd]. split; [reflexivity|]. split; [by apply same_run_log|].
    exists [l0], []. cbn. rewrite app_nil_r. repeat split; [lia|]. by intros l ?%elem_of_nil. }
  destruct (fault OpSession) as [e|].
  { cbn [fst snd]. split; [reflexivity|]. split; [by do 2 apply same_run_log|].
    exists [l0], []. cbn. rewrite app_nil_r. repeat split; [lia|]. by intros l ?%elem_of_nil. }
  match goal with |- context [try_finally _ _ ?w1] => set (w' := w1) end.
  match goal with |- context [TestDb.try_finally _ _ ?w1] => set (w0' := w1) end.
  assert (same_run w' w0') as Hsame' by (by do 2 apply same_run_log).
  destruct (test_copy_body fault0 fuel settings count w' w0' Hfault Hsame' eq_refl eq_refl)
    as (Hr & Hsb & Hout0).
  destruct (seed_try_body_output fuel settings count w') as (outb & Houtb & Hsucc).
  pose proof (guarded_result (seed_try_body fuel settings count) w') as Hg.
  pose proof (test_copy_guarded fault0
                (TestDb.seed_try_body (forget_fake fake) EmailStr fault0 fuel count) w0')
    as Hg0.
  cbv zeta in Hg, Hg0. rewrite Hr in Hg0.
  change TestDb.OpRollback with (forget_op OpRollback) in Hg0.
  change TestDb.OpClose with (forget_op OpClose) in Hg0.
  rewrite !Hfault in Hg0.
  change (stdout w') with (stdout w ++ [l0]) in Houtb.
  change (TestDb.stdout w0') with (TestDb.stdout w0) in Hout0.
  destruct Hsb as (Hrb & Hlb & Hcb). rewrite <- app_assoc in Houtb. cbn [app] in Houtb.
  set (run := try_finally _ _ w') in *. clearbody run.
  set (run0 := TestDb.try_finally _ _ w0') in *. clearbody run0.
  destruct (seed_try_body fuel settings count w') as [rb wb].
  destruct (TestDb.seed_try_body _ _ _ _ _ w0') as [rb0 wb0].
  cbn [fst snd] in *. clear Hr rb0 Hsame' w' w0'.
  destruct rb as [[]|e0|].
  - destruct Hg as (Hl & Hd & Hc & _ & Hres).
    destruct Hg0 as (Hl0 & Hd0 & Hc0 & Hs0 & Hres0).
    assert (same_run run.2 run0.2) as Hfin.
    { unfold same_run. rewrite Hd0, Hl0, Hc0, Hd, Hl, Hc, map_app, Hrb, Hlb, Hcb.
      by repeat split. }
    rewrite Hres0. rewrite Hs0, Hout0. specialize (Hsucc eq_refl).
    assert (forall tl l, l ∈ [success_line count] -> l ∈ (l0 :: outb) ++ tl) as Hsub.
    { intros tl l ->%list_elem_of_singleton. rewrite elem_of_app. left.
      by apply list_elem_of_further. }
    destruct (fault OpClose) as [e|].
    + destruct Hres as (-> & Hs). split; [reflexivity|]. split; [exact Hfin|].
      exists (l0 :: outb), [success_line count]. rewrite Hs, Houtb.
      split; [reflexivity|]. split; [reflexivity|]. split; [cbn; lia|].
      intros l Hl1. specialize (Hsub [] l Hl1). by rewrite app_nil_r in Hsub.
    + destruct Hres as (-> & Hs & _). split; [reflexivity|]. split; [exact Hfin|].
      exists ((l0 :: outb) ++ ["Session closed."]), [success_line count].
      rewrite Hs, Houtb.
      split; [by rewrite <- app_assoc|]. split; [reflexivity|]. split; [cbn; lia|].
      apply Hsub.
  - destruct Hg as (Hl & Hd & Hc & _ & Hres).
    destruct Hg0 as (Hl0 & Hd0 & Hc0 & Hs0 & Hres0).
    assert (same_run run.2 run0.2) as Hfin.
    { unfold same_run. rewrite Hd0, Hl0, Hc0, Hd, Hl, Hc, map_app, Hrb, Hlb, Hcb.
      by repeat split. }
    rewrite Hres0, Hs0, Hout0, app_nil_r.
    destruct (fault OpRollback) as [e1|], (fault OpClose) as [e2|].
    + destruct Hres as (-> & _ & Hs). split; [reflexivity|]. split; [exact Hfin|].
      exists (l0 :: outb), []. rewrite Hs, Houtb, app_nil_r.
      split; [reflexivity|]. split; [reflexivity|]. split; [cbn; lia|].
      by intros l ?%elem_of_nil.
    + destruct Hres as (-> & _ & Hs). split; [reflexivity|]. split; [exact Hfin|].
      exists ((l0 :: outb) ++ ["Session closed."]), []. rewrite Hs, Houtb, app_nil_r.
      split; [by rewrite <- app_assoc|]. split; [reflexivity|]. split; [cbn; lia|].
      by intros l ?%elem_of_nil.
    + destruct Hres as (-> & _ & Hs). split; [reflexivity|]. split; [exact Hfin|].
      exists ((l0 :: outb) ++ [error_line e0]), [error_line e0]. rewrite Hs, Houtb.
      split; [by rewrite <- app_assoc|]. split; [reflexivity|]. split; [cbn; lia|].
      intros l Hl1. rewrite elem_of_app. by right.
    + destruct Hres as (-> & _ & Hs). split; [reflexivity|]. split; [exact Hfin|].
      exists ((l0 :: outb) ++ [error_line e0; "Session closed."]), [error_line e0].
      rewrite Hs, Houtb.
      split; [by rewrite <- app_assoc|]. split; [reflexivity|]. split; [cbn; lia|].
      intros l ->%list_elem_of_singleton. rewrite elem_of_app. right.
      apply list_elem_of_here.
  - rewrite Hg, Hg0. cbn [fst snd]. split; [reflexivity|].
    split; [by repeat split|].
    exists (l0 :: outb), []. rewrite Houtb, Hout0.
    split; [reflexivity|]. split; [reflexivity|]. split; [cbn; lia|].
    by intros l ?%elem_of_nil.
Qed.

(** X15. The copy of the seeder kept in tests/unit/test_database.py (no
    password column, no progress lines, [bulk_save_objects] in place of
    [add_all]) behaves as the seeder does: started on the same table without
    its passwords, with the same draws and a store that fails at the same
    calls, it ends the same way (returns, raises the same exception, or hangs),
    makes the same store calls in the same order, consumes as many draws and
    leaves the same rows without their passwords.  It prints at most one line,
    and the seeder prints that line too. *)
Theorem test_copy_same_outcome fault0 fuel settings count w w0 :
  (forall op, fault0 (forget_op op) = fault op) ->
  same_run w w0 ->
  let run := seed_users fuel settings count w in
  let run0 := TestDb.seed_users (forget_fake fake) EmailStr fault0 fuel count w0 in
  run0.1 = run.1 /\ same_run run.2 run0.2
  /\ exists out out0,
       stdout run.2 = stdout w ++ out
       /\ TestDb.stdout run0.2 = TestDb.stdout w0 ++ out0
       /\ (length out0 <= 1)%nat /\ (forall l, l ∈ out0 -> l ∈ out).
Proof. apply test_copy_simulation. Qed.






End Seeder.


(** ** Instances *)

Lemma generated_batch_unique_witness :
  batch_ok Demo.existing 2 Demo.batch
  /\ (UserData.email Demo.candidate1 ∉ Demo.existing_emails)
  /\ (UserData.username Demo.candidate1 ∉ Demo.existing_usernames).
Proof.
  destruct (generated_batch_unique Demo.fake Demo.EmailStr Demo.digest Demo.no_fault
              5 Demo.settings 2 Demo.world) as [Hbatch Hgen].
  split.
  - destruct (Hbatch Demo.batch) as [Hin|Hok].
    + vm_compute. do 4 apply list_elem_of_further. apply list_elem_of_here.
    + vm_compute in Hin. inversion Hin.
    + exact Hok.
  - apply (Hgen Demo.existing_emails Demo.existing_usernames Demo.world Demo.candidate1
             ({[UserData.email Demo.candidate1]} ∪ Demo.existing_emails)
             ({[UserData.username Demo.candidate1]} ∪ Demo.existing_usernames)
             (advance 3 Demo.world)).
    vm_compute. reflexivity.
Defined.

Lemma commit_failure_rolls_back_witness :
  db_rows (seed_users Demo.fake Demo.EmailStr Demo.digest Demo.commit_fails
             5 Demo.settings 2 Demo.world).2 = Demo.existing
  /\ OpRollback ∈ [OpCreateAll; OpSession; OpQueryEmails; OpQueryUsernames;
                   OpAddAll Demo.batch; OpCommit; OpRollback; OpClose].
Proof.
  pose proof (commit_failure_rolls_back Demo.fake Demo.EmailStr Demo.digest
                Demo.commit_fails 5 Demo.settings 2 Demo.world
                [OpCreateAll; OpSession; OpQueryEmails; OpQueryUsernames;
                 OpAddAll Demo.batch; OpCommit; OpRollback; OpClose]) as H.
  cbv zeta in H.
  destruct H as (_ & _ & _ & H).
  - vm_compute. reflexivity.
  - destruct (H Demo.batch) as (Hrows & Hrb & _).
    + do 4 apply list_elem_of_further. apply list_elem_of_here.
    + right. left. discriminate.
    + split; [exact Hrows | exact Hrb].
Defined.

(** ** The retry loop *)

Lemma candidate_fake_after n j :
  candidate (Demo.fake_after n) Demo.EmailStr j =
  if (j <? n)%nat then candidate Demo.fake Demo.EmailStr 0
  else Some Demo.candidate1.
Proof.
  unfold candidate, Demo.fake_after. destruct (j <? n)%nat; reflexivity.
Qed.

(** C7. The loop of [generate_fake_user] draws as often as it takes: when a
    fresh candidate (e-mail and user name both outside the sets) is among the
    candidates to come, the loop ends and returns the first such candidate,
    after as many draws as come up to it; for every [n] there is a Faker
    under which the loop is still running after [n] draws and returns at the
    next one; and when every candidate to come collides, the loop never
    returns, whatever the number of iterations granted. *)
Theorem retry_loop_unbounded :
  (forall fake EmailStr E U w k ud,
      candidate fake EmailStr (fake_calls w + k) = Some ud -> fresh E U ud ->
      (forall j, (j < k)%nat -> candidate fake EmailStr (fake_calls w + j) <> None) ->
      exists k' ud',
        (k' <= k)%nat /\ fresh E U ud'
        /\ forall fuel, (k' < fuel)%nat ->
             generate_fake_user fake EmailStr fuel E U w =
             (Ok (ud', ({[UserData.email ud']} ∪ E, {[UserData.username ud']} ∪ U)),
              advance (S k') w))
  /\ (forall n, exists fake EmailStr E U w ud,
        generate_fake_user fake EmailStr n E U w = (Diverge, advance n w)
        /\ generate_fake_user fake EmailStr (S n) E U w =
           (Ok (ud, ({[UserData.email ud]} ∪ E, {[UserData.username ud]} ∪ U)),
            advance (S n) w))
  /\ (forall fake EmailStr E U w,
        (forall j, exists c,
            candidate fake EmailStr (fake_calls w + j) = Some c /\ ~ fresh E U c) ->
        forall fuel,
          generate_fake_user fake EmailStr fuel E U w = (Diverge, advance fuel w)).
Proof.
  split; [|split].
  - intros fake EmailStr E U w k ud Hc Hf Hsome.
    destruct (first_fresh fake EmailStr E U k (fake_calls w) ud Hc Hf Hsome)
      as (k' & ud' & Hle & Hc' & Hf' & Hcol).
    exists k', ud'. split; [exact Hle|]. split; [exact Hf'|].
    intros fuel Hlt. by apply generate_fake_user_first_fresh.
  - intros n.
    exists (Demo.fake_after n), Demo.EmailStr, Demo.existing_emails,
           Demo.existing_usernames, Demo.world, Demo.candidate1.
    assert (Hcol : forall j, (j < n)%nat ->
              exists c, candidate (Demo.fake_after n) Demo.EmailStr
                          (fake_calls Demo.world + j) = Some c
                        /\ ~ fresh Demo.existing_emails Demo.existing_usernames c).
    { intros j Hj. eexists. split.
      - rewrite candidate_fake_after. cbn [fake_calls Demo.world initial_world plus].
        apply Nat.ltb_lt in Hj. rewrite Hj. reflexivity.
      - intros [He _]. apply He. cbn. set_solver. }
    split; [by apply generate_fake_user_still_running|].
    apply generate_fake_user_first_fresh; [exact Hcol| | |lia].
    + rewrite candidate_fake_after. cbn [fake_calls Demo.world initial_world plus].
      by rewrite Nat.ltb_irrefl.
    + split; cbn; set_solver.
  - intros fake EmailStr E U w Hcol fuel.
    apply generate_fake_user_still_running. intros j _. apply Hcol.
Qed.

Lemma retry_loop_unbounded_witness :
  (exists k' ud',
      (k' <= 2)%nat /\ fresh Demo.existing_emails Demo.existing_usernames ud'
      /\ forall fuel, (k' < fuel)%nat ->
           generate_fake_user Demo.fake Demo.EmailStr fuel
             Demo.existing_emails Demo.existing_usernames Demo.world =
           (Ok (ud', ({[UserData.email ud']} ∪ Demo.existing_emails,
                      {[UserData.username ud']} ∪ Demo.existing_usernames)),
            advance (S k') Demo.world))
  /\ (forall fuel,
        generate_fake_user Demo.fake_constant Demo.EmailStr fuel
          Demo.existing_emails Demo.existing_usernames Demo.world =
        (Diverge, advance fuel Demo.world)).
Proof.
  destruct retry_loop_unbounded as (Hterm & _ & Hloop). split.
  - apply (Hterm Demo.fake Demo.EmailStr Demo.existing_emails Demo.existing_usernames
             Demo.world 2%nat Demo.candidate1).
    + vm_compute. reflexivity.
    + split; cbn; set_solver.
    + intros [|[|j]] Hj; [vm_compute; discriminate|vm_compute; discriminate|lia].
  - apply Hloop. intros j. exists Demo.candidate0. split.
    + reflexivity.
    + intros [He _]. apply He. cbn. set_solver.
Defined.

(** ** A malformed candidate is not re-drawn *)




Lemma duplicate_index_loaded_once_witness :
  (count_ops is_query_emails
     [OpCreateAll; OpSession; OpQueryEmails; OpQueryUsernames;
      OpAddAll Demo.batch; OpCommit; OpClose] <= 1)%nat
  /\ Demo.existing_emails ⊆ {[UserData.email Demo.candidate1]} ∪ Demo.existing_emails.
Proof.
  pose proof (duplicate_index_loaded_once Demo.fake Demo.EmailStr Demo.digest
                Demo.no_fault 5 Demo.settings 2 Demo.world
                [OpCreateAll; OpSession; OpQueryEmails; OpQueryUsernames;
                 OpAddAll Demo.batch; OpCommit; OpClose]) as H.
  cbv zeta in H. destruct H as (Hqe & _ & _ & Hgen & _).
  - vm_compute. reflexivity.
  - split; [exact Hqe|].
    destruct (Hgen Demo.existing_emails Demo.existing_usernames Demo.world
                Demo.candidate1
                ({[UserData.email Demo.candidate1]} ∪ Demo.existing_emails)
                ({[UserData.username Demo.candidate1]} ∪ Demo.existing_usernames)
                (advance 3 Demo.world)) as (_ & _ & Hsub & _).
    + vm_compute. reflexivity.
    + exact Hsub.
Defined.

Lemma nonpositive_count_succeeds_witness :
  (seed_users Demo.fake Demo.EmailStr Demo.digest Demo.no_fault
     5 Demo.settings (-3) Demo.world).1 = Ok tt
  /\ db_rows (seed_users Demo.fake Demo.EmailStr Demo.digest Demo.no_fault
                5 Demo.settings (-3) Demo.world).2 = Demo.existing.
Proof.
  destruct (nonpositive_count_succeeds Demo.fake Demo.EmailStr Demo.digest
              Demo.no_fault 5 Demo.settings (-3) Demo.world) as (Hres & Hrows & _).
  - lia.
  - intros op. reflexivity.
  - split; [exact Hres | exact Hrows].
Defined.

(** ** Configuration *)







(** ** Command line and exit status *)







(** ** The start-up line *)

Lemma list_ascii_of_append s1 s2 :
  list_ascii_of_string (s1 +:+ s2) = list_ascii_of_string s1 ++ list_ascii_of_string s2.
Proof. induction s1 as [|a s1 IH]; simpl; [reflexivity|by rewrite IH]. Qed.

Lemma list_ascii_of_string_inj s1 s2 :
  list_ascii_of_string s1 = list_ascii_of_string s2 -> s1 = s2.
Proof.
  intros H. rewrite <- (string_of_list_ascii_of_string s1),
    <- (string_of_list_ascii_of_string s2). by rewrite H.
Qed.

Lemma substring_length n : forall s,
  (String.length (String.substring 0 n s) <= n)%nat.
Proof.
  induction n as [|n IH]; intros [|a s]; cbn; try lia.
  specialize (IH s). lia.
Qed.

Lemma take_length n s : (length (list_ascii_of_string (Str.take n s)) <= n)%nat.
Proof.
  unfold Str.take. pose proof (substring_length n s) as H.
  revert H. generalize (String.substring 0 n s). intros t.
  assert (Hlen : length (list_ascii_of_string t) = String.length t)
    by (induction t; cbn; congruence).
  lia.
Qed.

(** Two texts that end in [, salt=], at most four characters and four stars
    are equal only if the characters before the stars are. *)
Lemma salt_suffix_inj (a1 a2 p1 p2 : list ascii) :
  (length p1 <= 4)%nat -> (length p2 <= 4)%nat ->
  a1 ++ list_ascii_of_string ", salt=" ++ p1 ++ list_ascii_of_string "****"
  = a2 ++ list_ascii_of_string ", salt=" ++ p2 ++ list_ascii_of_string "****" ->
  p1 = p2.
Proof.
  intros H1 H2 Heq.
  rewrite !(app_assoc _ _ (list_ascii_of_string "****")) in Heq.
  apply app_inv_tail in Heq.
  apply (f_equal (@rev ascii)) in Heq. rewrite !rev_app_distr in Heq.
  rewrite <- (rev_involutive p1), <- (rev_involutive p2). f_equal.
  rewrite <- (length_rev p1) in H1. rewrite <- (length_rev p2) in H2.
  revert H1 H2 Heq. generalize (rev p1) (rev p2) (rev a1) (rev a2).
  intros q1 q2 r1 r2 H1 H2 Heq. cbn in Heq.
  destruct q1 as [|x1 [|x2 [|x3 [|x4 [|x5 q1]]]]]; cbn in H1; try lia;
    destruct q2 as [|y1 [|y2 [|y3 [|y4 [|y5 q2]]]]]; cbn in H2; try lia;
    cbn in Heq; simplify_eq; reflexivity.
Qed.

Lemma loaded_settings_line_salt s1 s2 :
  loaded_settings_line s1 = loaded_settings_line s2 ->
  Str.take 4 (salt s1) = Str.take 4 (salt s2).
Proof.
  unfold loaded_settings_line. intros H.
  apply (f_equal list_ascii_of_string) in H.
  rewrite !list_ascii_of_append in H.
  rewrite !(app_assoc (list_ascii_of_string "Loaded settings: db_host=")) in H.
  rewrite !(app_assoc (_ ++ list_ascii_of_string (db_host _))) in H.
  rewrite !(app_assoc (_ ++ list_ascii_of_string ", db_user=")) in H.
  apply salt_suffix_inj in H; [by apply list_ascii_of_string_inj| |]; apply take_length.
Qed.

(** C10. Once the configuration has loaded, the first thing the script
    prints is the line with the database host, the database user and the
    first four characters of the salt; two configurations whose salts differ
    within their first four characters never give the same line, so the
    output of the script tells them apart. *)
Theorem startup_line_shows_salt_prefix :
  (forall s,
      loaded_settings_line s =
      "Loaded settings: db_host=" +:+ db_host s +:+ ", db_user=" +:+ db_user s
      +:+ ", salt=" +:+ String.substring 0 4 (salt s) +:+ "****")
  /\ (forall fake EmailStr bcrypt fault env argv fuel w s,
        Settings_new env = inr s ->
        exists out,
          stdout (script fake EmailStr bcrypt fault env argv fuel w).2
          = stdout w ++ loaded_settings_line s :: out)
  /\ (forall s1 s2,
        String.substring 0 4 (salt s1) <> String.substring 0 4 (salt s2) ->
        loaded_settings_line s1 <> loaded_settings_line s2)
  /\ (forall fake EmailStr bcrypt fault env1 env2 argv fuel s1 s2 rows,
        Settings_new env1 = inr s1 -> Settings_new env2 = inr s2 ->
        String.substring 0 4 (salt s1) <> String.substring 0 4 (salt s2) ->
        stdout (script fake EmailStr bcrypt fault env1 argv fuel (initial_world rows)).2
        <> stdout (script fake EmailStr bcrypt fault env2 argv fuel (initial_world rows)).2).
Proof.
  assert (Hout : forall fake EmailStr bcrypt fault env argv fuel w s,
            Settings_new env = inr s ->
            exists out,
              stdout (script fake EmailStr bcrypt fault env argv fuel w).2
              = stdout w ++ loaded_settings_line s :: out).
  { intros fake EmailStr bcrypt fault env argv fuel w s Hs. unfold script. rewrite Hs.
    destruct (parse_arguments argv) as [number|code].
    - destruct (appends_seed_users fake EmailStr bcrypt fault fuel s number
                  (add_stdout (loaded_settings_line s) w)) as [out Hout].
      exists out. destruct (seed_users _ _ _ _ _ _ _ _) as [[u|e|] w2];
        cbn [snd] in Hout |- *; rewrite Hout; wsimpl; by rewrite <- app_assoc.
    - exists []. reflexivity. }
  assert (Hne : forall s1 s2,
            String.substring 0 4 (salt s1) <> String.substring 0 4 (salt s2) ->
            loaded_settings_line s1 <> loaded_settings_line s2).
  { intros s1 s2 Hsalt Hline. apply Hsalt. by apply loaded_settings_line_salt. }
  split; [reflexivity|]. split; [exact Hout|]. split; [exact Hne|].
  intros fake EmailStr bcrypt fault env1 env2 argv fuel s1 s2 rows Hs1 Hs2 Hsalt Heq.
  destruct (Hout fake EmailStr bcrypt fault env1 argv fuel (initial_world rows) s1 Hs1)
    as [out1 H1].
  destruct (Hout fake EmailStr bcrypt fault env2 argv fuel (initial_world rows) s2 Hs2)
    as [out2 H2].
  rewrite H1, H2 in Heq. cbn [stdout initial_world app] in Heq.
  apply (f_equal (hd EmptyString)) in Heq. cbn [hd] in Heq.
  by apply (Hne s1 s2).
Qed.

Lemma startup_line_shows_salt_prefix_witness :
  stdout (script Demo.fake Demo.EmailStr Demo.digest Demo.no_fault
            Demo.environ ["-n"; "2"] 5 (initial_world Demo.existing)).2
  <> stdout (script Demo.fake Demo.EmailStr Demo.digest Demo.no_fault
               Demo.environ_other_salt ["-n"; "2"] 5 (initial_world Demo.existing)).2
  /\ exists out,
       stdout (script Demo.fake Demo.EmailStr Demo.digest Demo.no_fault
                 Demo.environ ["-n"; "2"] 5 Demo.world).2
       = "Loaded settings: db_host=localhost, db_user=seeder, salt=pepp****" :: out.
Proof.
  destruct startup_line_shows_salt_prefix as (_ & Hout & _ & Hdiff). split.
  - apply (Hdiff Demo.fake Demo.EmailStr Demo.digest Demo.no_fault
             Demo.environ Demo.environ_other_salt ["-n"; "2"] 5%nat Demo.settings
             (mkSettings "localhost" "seeder" "hunter2" "app" (Some 5432) "salt-value")
             Demo.existing).
    + vm_compute. reflexivity.
    + vm_compute. reflexivity.
    + cbn. discriminate.
  - apply (Hout Demo.fake Demo.EmailStr Demo.digest Demo.no_fault Demo.environ
             ["-n"; "2"] 5%nat Demo.world Demo.settings).
    vm_compute. reflexivity.
Defined.

(** ** The password hasher *)

(** [hash_password] hands the plain text followed by the pepper to the
    hasher, once, and returns the digest as it is. *)
Lemma hash_password_concat bcrypt plain pepper w :
  hash_password bcrypt plain pepper w
  = (Ok (bcrypt (hash_calls w) (plain +:+ pepper)), tick_hash w).
Proof. reflexivity. Qed.

(** With the pepper fixed, the text handed to the hasher determines the
    plain text. *)
Lemma salted_password_inj plain1 plain2 pepper :
  plain1 +:+ pepper = plain2 +:+ pepper -> plain1 = plain2.
Proof.
  intros H. apply (f_equal list_ascii_of_string) in H.
  rewrite !list_ascii_of_append in H. apply app_inv_tail in H.
  by apply list_ascii_of_string_inj.
Qed.

(** ** More on the configuration *)



(** ** Concatenations *)

Lemma append_assoc (s1 s2 s3 : string) : (s1 +:+ s2) +:+ s3 = s1 +:+ s2 +:+ s3.
Proof.
  induction s1 as [|a s1 IH]; [reflexivity|].
  change (String a ((s1 +:+ s2) +:+ s3) = String a (s1 +:+ s2 +:+ s3)).
  by rewrite IH.
Qed.

(** X11. [hash_password] calls the hasher once, on the plain password
    followed by the salt, and returns the digest untouched.  With the salt
    fixed, two plain passwords give the hasher the same text only if they are
    equal; but nothing marks where the password ends and the salt begins, so
    moving characters from the end of the one to the start of the other gives
    the same digest. *)
Theorem hash_password_pepper bcrypt :
  (forall plain pepper w,
      hash_password bcrypt plain pepper w
      = (Ok (bcrypt (hash_calls w) (plain +:+ pepper)), tick_hash w))
  /\ (forall plain1 plain2 pepper,
        plain1 +:+ pepper = plain2 +:+ pepper -> plain1 = plain2)
  /\ (forall plain tail pepper w,
        hash_password bcrypt (plain +:+ tail) pepper w
        = hash_password bcrypt plain (tail +:+ pepper) w).
Proof.
  split; [reflexivity|]. split; [apply salted_password_inj|].
  intros plain tail pepper w. unfold hash_password, pwd_context_hash.
  by rewrite append_assoc.
Qed.

Lemma hash_password_pepper_witness :
  "secret1" = "secret1"
  /\ hash_password Demo.digest "secret1p" "epper" Demo.world
     = hash_password Demo.digest "secret1" "pepper" Demo.world.
Proof.
  destruct (hash_password_pepper Demo.digest) as (_ & Hinj & Hshift). split.
  - apply (Hinj "secret1" "secret1" "pepper"). reflexivity.
  - apply (Hshift "secret1" "p" "epper").
Defined.

(** X12. [DATABASE_URL] puts the user, the password, the host, the port and
    the database name into the URL as they are, with nothing escaped: a colon
    moved from the user to the password, or an [@] moved from the password to
    the host, gives the same URL. *)
Theorem DATABASE_URL_unescaped h u p n port sl :
  (forall x, DATABASE_URL (mkSettings h (u +:+ ":" +:+ x) p n port sl)
             = DATABASE_URL (mkSettings h u (x +:+ ":" +:+ p) n port sl))
  /\ (forall x, DATABASE_URL (mkSettings h u (p +:+ "@" +:+ x) n port sl)
                = DATABASE_URL (mkSettings (x +:+ "@" +:+ h) u p n port sl)).
Proof.
  split; intros x; unfold DATABASE_URL; cbn [db_user db_password db_host db_port db_name];
    rewrite ?append_assoc; reflexivity.
Qed.

Lemma Demo_fake_valid n : candidate Demo.fake Demo.EmailStr n <> None.
Proof.
  unfold candidate, Demo.fake, Demo.EmailStr. cbn [Fake.email].
  rewrite !list_ascii_of_append, !existsb_app.
  replace (existsb (Ascii.eqb "@") (list_ascii_of_string "@example.org")) with true
    by reflexivity.
  rewrite !orb_true_r. discriminate.
Qed.

(** ** The script, end to end *)

(** X13. End to end: with a configuration that validates, a count [z] on the
    command line, a store that raises nothing and draws that all yield
    candidates, a run of the script that ends exits with status 0, has added
    exactly [z] rows (none for a count that is not positive) with e-mails and
    user names nowhere repeated after the rows of the store, each with a
    digest for password, and its output ends with the success line and
    [Session closed.]. *)
Theorem script_seeds_count fake EmailStr bcrypt fault env argv z fuel w s :
  Settings_new env = inr s -> parse_arguments argv = Argparse.Namespace z ->
  (forall op, fault op = None) -> (forall n, candidate fake EmailStr n <> None) ->
  let run := script fake EmailStr bcrypt fault env argv fuel w in
  run.1 <> None ->
  run.1 = Some 0
  /\ exists new out,
       db_rows run.2 = db_rows w ++ new
       /\ length new = Z.to_nat z
       /\ batch_ok (db_rows w) z new
       /\ stdout run.2 = out ++ [success_line z; "Session closed."]
       /\ forall u, u ∈ new ->
            exists k plain, User.password u = bcrypt k (plain +:+ salt s).
Proof.
  intros Hs Hargs Hnf Hcand. cbv zeta. unfold script. rewrite Hs, Hargs.
  pose proof (seed_users_commits_run fake EmailStr bcrypt fault fuel s z
                (add_stdout (loaded_settings_line s) w) Hnf Hcand) as Hrun.
  cbv zeta in Hrun.
  destruct (seed_users _ _ _ _ _ _ _ _) as [[u|e|] w2]; cbn [fst snd] in Hrun |- *.
  - intros _. destruct Hrun as (_ & new & out & Hrows & Hok & _ & _ & _ & Hout & Hprov);
      [discriminate|].
    split; [reflexivity|]. exists new, out. wsimpl in Hrows.
    split; [exact Hrows|]. split; [apply Hok|]. split; [exact Hok|].
    split; [exact Hout|].
    intros x [i Hi]%list_elem_of_lookup.
    destruct (Hprov i x Hi) as (n & ud & _ & _ & ->). by eexists _, _.
  - intros _. by destruct Hrun as (Hr & _).
  - intros H. by destruct H.
Qed.

Lemma script_seeds_count_witness :
  (script Demo.fake Demo.EmailStr Demo.digest Demo.no_fault
     Demo.environ ["-n"; "2"] 5 Demo.world).1 = Some 0
  /\ exists new out,
       db_rows (script Demo.fake Demo.EmailStr Demo.digest Demo.no_fault
                  Demo.environ ["-n"; "2"] 5 Demo.world).2 = Demo.existing ++ new
       /\ length new = 2%nat
       /\ stdout (script Demo.fake Demo.EmailStr Demo.digest Demo.no_fault
                    Demo.environ ["-n"; "2"] 5 Demo.world).2
          = out ++ ["Successfully added 2 users to the database."; "Session closed."].
Proof.
  destruct (script_seeds_count Demo.fake Demo.EmailStr Demo.digest Demo.no_fault
              Demo.environ ["-n"; "2"] 2 5%nat Demo.world Demo.settings)
    as (Hexit & new & out & Hrows & Hlen & _ & Hout & _).
  - vm_compute. reflexivity.
  - reflexivity.
  - intros op. reflexivity.
  - apply Demo_fake_valid.
  - vm_compute. discriminate.
  - split; [exact Hexit|]. exists new, out.
    split; [exact Hrows|]. split; [exact Hlen|exact Hout].
Defined.

(** X14. A commit the store rejects does not show in the exit status: when
    [commit] raises, for whatever reason, and everything else goes through,
    a run of the script that ends exits with status 0 all the same; the rows
    of the store are those from before the run, and the output ends with the
    line of the handler for that exception and [Session closed.]. *)
Theorem script_exit_status_hides_failed_commit
    fake EmailStr bcrypt fault env argv z fuel w s e :
  Settings_new env = inr s -> parse_arguments argv = Argparse.Namespace z ->
  fault OpCommit = Some e -> (forall op, op <> OpCommit -> fault op = None) ->
  (forall n, candidate fake EmailStr n <> None) ->
  let run := script fake EmailStr bcrypt fault env argv fuel w in
  run.1 <> None ->
  run.1 = Some 0
  /\ db_rows run.2 = db_rows w
  /\ exists out, stdout run.2 = out ++ [error_line e; "Session closed."].
Proof.
  intros Hs Hargs HC Hnf Hcand. cbv zeta. unfold script. rewrite Hs, Hargs.
  pose proof (seed_users_commit_rejected fake EmailStr bcrypt fault fuel s z
                (add_stdout (loaded_settings_line s) w) e HC Hnf Hcand) as Hrun.
  cbv zeta in Hrun.
  destruct (seed_users _ _ _ _ _ _ _ _) as [[u|e'|] w2]; cbn [fst snd] in Hrun |- *.
  - intros _. destruct Hrun as (_ & Hrows & _ & new & out & _ & _ & Hout); [discriminate|].
    split; [reflexivity|]. split; [exact Hrows|]. by exists out.
  - intros _. by destruct Hrun as (Hr & _).
  - intros H. by destruct H.
Qed.

Lemma script_exit_status_hides_failed_commit_witness :
  (script Demo.fake Demo.EmailStr Demo.digest Demo.commit_fails
     Demo.environ ["-n"; "2"] 5 Demo.world).1 = Some 0
  /\ db_rows (script Demo.fake Demo.EmailStr Demo.digest Demo.commit_fails
                Demo.environ ["-n"; "2"] 5 Demo.world).2 = Demo.existing.
Proof.
  destruct (script_exit_status_hides_failed_commit Demo.fake Demo.EmailStr Demo.digest
              Demo.commit_fails Demo.environ ["-n"; "2"] 2 5%nat Demo.world
              Demo.settings
              (IntegrityError "duplicate key value violates unique constraint"))
    as (Hexit & Hrows & _).
  - vm_compute. reflexivity.
  - reflexivity.
  - reflexivity.
  - intros op Hop. destruct op; try reflexivity. contradiction.
  - apply Demo_fake_valid.
  - vm_compute. discriminate.
  - split; [exact Hexit|exact Hrows].
Defined.

(** ** Instances of the properties of [seed_users] *)

Lemma seed_users_raises_unguarded_witness :
  Demo.create_all_fails OpCreateAll = Some (OtherException "connection refused")
  \/ Demo.create_all_fails OpSession = Some (OtherException "connection refused")
  \/ Demo.create_all_fails OpRollback = Some (OtherException "connection refused")
  \/ Demo.create_all_fails OpClose = Some (OtherException "connection refused").
Proof.
  apply (seed_users_raises_unguarded Demo.fake Demo.EmailStr Demo.digest
           Demo.create_all_fails 5 Demo.settings 2 Demo.world).
  vm_compute. reflexivity.
Defined.

Lemma seed_users_reports_outcome_witness :
  (seed_users Demo.fake Demo.EmailStr Demo.digest Demo.commit_fails
     5 Demo.settings 2 Demo.world).1 = Ok tt
  /\ session_new (seed_users Demo.fake Demo.EmailStr Demo.digest Demo.commit_fails
                    5 Demo.settings 2 Demo.world).2 = [].
Proof.
  destruct (seed_users_reports_outcome Demo.fake Demo.EmailStr Demo.digest
              Demo.commit_fails 5 Demo.settings 2 Demo.world)
    as (Hres & Hsess & _).
  - reflexivity.
  - reflexivity.
  - reflexivity.
  - reflexivity.
  - vm_compute. discriminate.
  - split; [exact Hres|exact Hsess].
Defined.

Lemma session_closed_once_witness :
  last [OpCreateAll; OpSession; OpQueryEmails; OpQueryUsernames;
        OpAddAll Demo.batch; OpCommit; OpRollback; OpClose] = Some OpClose.
Proof.
  destruct (session_closed_once Demo.fake Demo.EmailStr Demo.digest
              Demo.commit_fails 5 Demo.settings 2 Demo.world
              [OpCreateAll; OpSession; OpQueryEmails; OpQueryUsernames;
               OpAddAll Demo.batch; OpCommit; OpRollback; OpClose])
    as (_ & Hlast & _).
  - vm_compute. reflexivity.
  - apply Hlast. do 7 apply list_elem_of_further. apply list_elem_of_here.
Defined.

Lemma generate_users_rows_witness :
  exists new, Demo.batch = [] ++ new /\ length new = 2%nat.
Proof.
  destruct (generate_users_rows Demo.fake Demo.EmailStr Demo.digest
              5 Demo.settings [1; 2] Demo.existing_emails Demo.existing_usernames []
              Demo.world Demo.batch
              ({["user2@example.org"]} ∪ ({["user1@example.org"]} ∪ Demo.existing_emails))
              ({["user2"]} ∪ ({["user1"]} ∪ Demo.existing_usernames))
              (generate_users Demo.fake Demo.EmailStr Demo.digest
                 5 Demo.settings [1; 2] Demo.existing_emails Demo.existing_usernames []
                 Demo.world).2)
    as (new & Hnew & Hlen & _).
  - vm_compute. reflexivity.
  - exists new. split; [exact Hnew|exact Hlen].
Defined.

Lemma commit_never_rejects_batch_witness :
  exists users,
    db_rows (seed_users Demo.fake Demo.EmailStr Demo.digest Demo.no_fault
               5 Demo.settings 2 Demo.world).2 = Demo.existing ++ users.
Proof.
  destruct (commit_never_rejects_batch Demo.fake Demo.EmailStr Demo.digest
              Demo.no_fault 5 Demo.settings 2 Demo.world
              [OpCreateAll; OpSession; OpQueryEmails; OpQueryUsernames;
               OpAddAll Demo.batch; OpCommit; OpClose])
    as (users & _ & _ & Hrows & _).
  - vm_compute. reflexivity.
  - do 5 apply list_elem_of_further. apply list_elem_of_here.
  - reflexivity.
  - exists users. exact Hrows.
Defined.

Lemma unique_columns_preserved_witness :
  NoDup (User.emails (db_rows (seed_users Demo.fake Demo.EmailStr Demo.digest
                                 Demo.no_fault 5 Demo.settings 2 Demo.world).2))
  /\ NoDup (User.usernames (db_rows (seed_users Demo.fake Demo.EmailStr Demo.digest
                                       Demo.no_fault 5 Demo.settings 2 Demo.world).2)).
Proof.
  apply (unique_columns_preserved Demo.fake Demo.EmailStr Demo.digest
           Demo.no_fault 5 Demo.settings 2 Demo.world).
  - apply NoDup_cons. split; [apply not_elem_of_nil|apply NoDup_nil_2].
  - apply NoDup_cons. split; [apply not_elem_of_nil|apply NoDup_nil_2].
Defined.

Lemma seed_users_commits_witness :
  (seed_users Demo.fake Demo.EmailStr Demo.digest Demo.no_fault
     5 Demo.settings 2 Demo.world).1 = Ok tt
  /\ exists new,
       db_rows (seed_users Demo.fake Demo.EmailStr Demo.digest Demo.no_fault
                  5 Demo.settings 2 Demo.world).2 = Demo.existing ++ new
       /\ batch_ok Demo.existing 2 new.
Proof.
  destruct (seed_users_commits Demo.fake Demo.EmailStr Demo.digest Demo.no_fault
              5 Demo.settings 2 Demo.world)
    as (Hres & new & out & Hrows & Hok & _).
  - intros op. reflexivity.
  - apply Demo_fake_valid.
  - vm_compute. discriminate.
  - split; [exact Hres|]. exists new. split; [exact Hrows|exact Hok].
Defined.

Lemma seed_users_hangs_in_generator_witness :
  db_rows (seed_users Demo.fake_constant Demo.EmailStr Demo.digest Demo.no_fault
             3 Demo.settings 1 Demo.world).2 = Demo.existing
  /\ (3 <= fake_calls (seed_users Demo.fake_constant Demo.EmailStr Demo.digest
                         Demo.no_fault 3 Demo.settings 1 Demo.world).2)%nat.
Proof.
  destruct (seed_users_hangs_in_generator Demo.fake_constant Demo.EmailStr Demo.digest
              Demo.no_fault 3 Demo.settings 1 Demo.world)
    as (_ & Hrows & _ & _ & _ & _ & _ & _ & Hdraws).
  - vm_compute. reflexivity.
  - split; [exact Hrows|exact Hdraws].
Defined.

(** ** Instances of the properties of the copy in tests/unit/test_database.py *)

Lemma test_copy_same_outcome_witness :
  let fault0 := fun op =>
    match op with
    | TestDb.OpCommit =>
        Some (IntegrityError "duplicate key value violates unique constraint")
    | _ => None
    end in
  let w0 := TestDb.mkWorld (map forget_user Demo.existing) [] [] [] 0 in
  let run0 := TestDb.seed_users (forget_fake Demo.fake) Demo.EmailStr fault0 5 2 w0 in
  run0.1 = Ok tt /\ TestDb.db_rows run0.2 = map forget_user Demo.existing
  /\ TestDb.fake_calls run0.2 = 5%nat.
Proof.
  cbv zeta.
  destruct (test_copy_same_outcome Demo.fake Demo.EmailStr Demo.digest Demo.commit_fails
              (fun op =>
                 match op with
                 | TestDb.OpCommit =>
                     Some (IntegrityError "duplicate key value violates unique constraint")
                 | _ => None
                 end)
              5 Demo.settings 2 Demo.world
              (TestDb.mkWorld (map forget_user Demo.existing) [] [] [] 0))
    as (Hres & (Hrows & _ & Hcalls) & _).
  - intros op. destruct op; reflexivity.
  - split; [reflexivity|]. split; reflexivity.
  - rewrite Hres, Hrows, Hcalls. vm_compute. by repeat split.
Defined.


